(** * py-embed: the embedding service, its request handlers and their store

    Shallow embedding of [app/main.py] and [app/routers/encode.py].
    The handlers are written in a state-and-exception monad over the
    process-wide world (the [embeddings] table reached through [conn], and
    a log of the calls that leave the process).  The sentence-transformer
    model, the text splitter and the vector operator of the storage engine
    are libraries outside the repository: they are the fields of the class
    [Externals].  A statement is evaluated against the table as it stands;
    faults of the connection itself (a lost connection, a transaction left
    failed by an earlier error) are not part of the model, nor are the
    progress bar and the timing helpers of [app/timming.py]. *)

From Stdlib Require Import List String ZArith QArith Bool Lia Permutation Sorted.
From Stdlib Require Import DecimalString.
Import ListNotations.
Local Open Scope string_scope.
Local Open Scope Z_scope.

Set Implicit Arguments.

(** ** Exceptions and results *)

Inductive exn : Type :=
| ValueError        (* configuration rejected by a constructor *)
| TypeError
| AttributeError (attr : string)
| IndexError
| EncodingFailure   (* raised by the embedding capability *)
| DatabaseError.    (* raised by the storage engine *)

Inductive result (A : Type) : Type :=
| Ok (a : A)
| Raise (e : exn).
Arguments Ok {A} a.
Arguments Raise {A} e.

(** ** Floats

    Python [float] and the engine's [double precision] are the same
    binary64 values.  The handlers only subtract from one and compare, and
    the engine's comparison is a total order (NaN sorts above every other
    value), so that is all the interface asks for. *)

Class Float8 : Type := {
  float : Type;
  float_one : float;
  float_sub : float -> float -> float;
  float_leb : float -> float -> bool;
  float_leb_total : forall a b, float_leb a b = true \/ float_leb b a = true;
  float_leb_trans : forall a b c,
      float_leb a b = true -> float_leb b c = true -> float_leb a c = true
}.

Definition float_gtb `{Float8} (a b : float) : bool := negb (float_leb a b).

(** ** Request and response models (pydantic [BaseModel] classes) *)

Module SearchEmbeddingsBody.
Record t {float : Type} : Type := mk {
    query : string;
    language : option string;   (* = None *)
    cutoff : option float;      (* = 0.2 *)
    top_k : option Z            (* = 10 *)
  }.
Arguments t : clear implicits.
End SearchEmbeddingsBody.

Module SearchResult.
Record t {float : Type} : Type := mk {
    uuid : string;
    text : string;
    reference_id : string;
    score : float
  }.
Arguments t : clear implicits.
End SearchResult.

Module CreateEmbeddingsBody.
Record t {dict : Type} : Type := mk {
    text : string;
    reference_id : string;
    meta : dict;
    language : option string;   (* = None *)
    batch_size : option Z;      (* = 32 *)
    chunk_size : option Z       (* = 1000 *)
  }.
Arguments t : clear implicits.
End CreateEmbeddingsBody.

Module EmbeddingsOutputItem.
Record t {float : Type} : Type := mk {
    uuid : string;
    text : string;
    embedding : list float
  }.
Arguments t : clear implicits.
End EmbeddingsOutputItem.

Module CreateEmbeddingsOutput.
Record t {float : Type} : Type := mk {
    items : list (EmbeddingsOutputItem.t float)
  }.
Arguments t : clear implicits.
End CreateEmbeddingsOutput.

Module EncodeQueryBody.
Record t : Type := mk {
    query : string
  }.
End EncodeQueryBody.

Module EncodeBody.
Record t : Type := mk {
    text : string;
    batch_size : option Z;      (* = 32 *)
    chunk_size : option Z       (* = 1000 *)
  }.
End EncodeBody.

Module BulkEncodeItem.
Record t : Type := mk {
    id : string;
    text : string
  }.
End BulkEncodeItem.

Module BulkEncodeBody.
Record t : Type := mk {
    texts : list BulkEncodeItem.t;
    batch_size : option Z;      (* = 32 *)
    chunk_size : option Z       (* = 1000 *)
  }.
End BulkEncodeBody.

Module EncodeOutput.
Record t {float : Type} : Type := mk {
    text : string;
    embedding : list float
  }.
Arguments t : clear implicits.
End EncodeOutput.

Module BulkEncodeOutput.
Record t {float : Type} : Type := mk {
    id : string;
    text : string;
    embedding : list float
  }.
Arguments t : clear implicits.
End BulkEncodeOutput.

(** Attribute access on a model instance whose class does not declare the
    attribute.  A pydantic model carries exactly its declared fields
    (undeclared keys of the request are dropped at validation), and reading
    any other name raises [AttributeError]. *)

Inductive pyvalue : Type :=
| PyNone
| PyStr (s : string)
| PyInt (z : Z).

Fixpoint lookup_field (name : string) (fields : list (string * pyvalue))
  : option pyvalue :=
  match fields with
  | [] => None
  | (k, v) :: rest => if String.eqb k name then Some v else lookup_field name rest
  end.

Definition getattr (fields : list (string * pyvalue)) (name : string)
  : result pyvalue :=
  match lookup_field name fields with
  | Some v => Ok v
  | None => Raise (AttributeError name)
  end.

Definition EncodeQueryBody_fields (data : EncodeQueryBody.t)
  : list (string * pyvalue) :=
  [("query", PyStr (EncodeQueryBody.query data))].

Definition as_optional_int (v : pyvalue) : option Z :=
  match v with
  | PyInt z => Some z
  | _ => None
  end.

(** ** The text splitter ([app/internal/model.py]) *)

Definition newline : string := String (Ascii.ascii_of_nat 10) EmptyString.

Record text_splitter : Type := {
  separators : list string;
  splitter_chunk_size : Z;
  splitter_chunk_overlap : Z
}.

(** Modelled from the spec: the constructor of the text-splitter library,
    which is not part of the repository.  The chunker contract asks for
    [overlap < max_size] and fails with a configuration error when
    [overlap >= max_size]; a chunk size of [None] cannot be compared with
    the overlap at all. *)
Definition RecursiveCharacterTextSplitter
    (seps : list string) (chunk_size : option Z) (chunk_overlap : Z)
  : result text_splitter :=
  match chunk_size with
  | None => Raise TypeError
  | Some size =>
      if size <=? chunk_overlap then Raise ValueError
      else Ok {| separators := seps;
                 splitter_chunk_size := size;
                 splitter_chunk_overlap := chunk_overlap |}
  end.

Definition new_text_splitter (chunk_size : option Z) (chunk_overlap : Z)
  : result text_splitter :=
  RecursiveCharacterTextSplitter
    [newline ++ newline; newline; ". "; " "; ""] chunk_size chunk_overlap.

(** ** External capabilities

    - [encode_str], [encode_list]: [model.encode] on one sentence and on a
      list of sentences, followed by [tolist()]; arguments are the input,
      [batch_size] and [device].
    - [split_text]: the splitter's [split_text] method.
    - [vector_in]: the engine reading the text of a Python list as a value
      of the [embedding] column's type; [None] when the engine rejects it
      (wrong dimension, not a number).
    - [cosine_distance]: the engine's operator on two column values.
    - [uuid_generate]: the default of the [uuid] column, by insertion
      number. *)

Class Externals `{Float8} : Type := {
  dict : Type;
  json_dumps : dict -> string;
  get_device : option string;
  encode_str : string -> option Z -> option string -> result (list float);
  encode_list :
    list string -> option Z -> option string -> result (list (list float));
  split_text : text_splitter -> string -> list string;
  vector : Type;
  vector_in : list float -> option vector;
  cosine_distance : vector -> vector -> float;
  uuid_generate : nat -> string
}.

(** ** The world: the [embeddings] table and the calls made so far *)

Record embeddings_row {vector : Type} : Type := {
  row_uuid : string;
  row_text : string;
  row_reference_id : string;
  row_embedding : vector;
  row_language : option string;
  row_meta : string
}.
Arguments embeddings_row : clear implicits.

Inductive call : Type :=
| ModelEncode (sentences : list string) (batch_size : option Z)
| SqlSelect
| SqlInsert (text reference_id : string)
| ConnCommit.

Record world {vector : Type} : Type := {
  embeddings : list (embeddings_row vector);
  inserted : nat;
  calls : list call
}.
Arguments world : clear implicits.

Definition is_model_call (c : call) : bool :=
  match c with ModelEncode _ _ => true | _ => false end.

Definition is_insert (c : call) : bool :=
  match c with SqlInsert _ _ => true | _ => false end.

Definition log {vector : Type} (c : call) (w : world vector) : world vector :=
  {| embeddings := embeddings w; inserted := inserted w;
     calls := calls w ++ [c] |}.

(** A row of the search statement's result: uuid, text, reference_id,
    score. *)
Record match_row {float : Type} : Type := {
  match_uuid : string;
  match_text : string;
  match_reference_id : string;
  match_score : float
}.
Arguments match_row : clear implicits.

(** A string with a NUL character (code 0), which the database driver
    does not adapt. *)
Fixpoint has_nul (s : string) : bool :=
  match s with
  | EmptyString => false
  | String c rest => Ascii.eqb c Ascii.zero || has_nul rest
  end.

Definition optional_has_nul (s : option string) : bool :=
  match s with
  | Some s' => has_nul s'
  | None => false
  end.

Section Service.

Context `{X : Externals}.

(** ** The handler monad: the world is threaded through, an exception
    keeps the world reached when it was raised. *)

Definition M (A : Type) : Type := world vector -> result A * world vector.

Definition ret {A} (a : A) : M A := fun w => (Ok a, w).

Definition raise {A} (e : exn) : M A := fun w => (Raise e, w).

Definition bind {A B} (m : M A) (k : A -> M B) : M B :=
  fun w =>
    match m w with
    | (Ok a, w') => k a w'
    | (Raise e, w') => (Raise e, w')
    end.

Definition lift {A} (r : result A) : M A := fun w => (r, w).

Notation "x <- m ;; k" := (bind m (fun x => k))
  (at level 61, m at next level, right associativity).

(** ** Calls that leave the process *)

Definition model_encode_str (sentence : string) (batch_size : option Z)
  : M (list float) :=
  fun w => (encode_str sentence batch_size get_device,
            log (ModelEncode [sentence] batch_size) w).

Definition model_encode (sentences : list string) (batch_size : option Z)
  : M (list (list float)) :=
  fun w => (encode_list sentences batch_size get_device,
            log (ModelEncode sentences batch_size) w).

(** *** The search statement

    SELECT * FROM (SELECT uuid, text, reference_id,
                          1 - cosine_distance(embedding, (%s)) AS score
                   FROM embeddings) as matches
    WHERE score > %s ORDER BY score DESC LIMIT %s; *)

Definition matches (q : vector) (table : list (embeddings_row vector))
  : list (match_row float) :=
  map (fun r => {| match_uuid := row_uuid r;
                   match_text := row_text r;
                   match_reference_id := row_reference_id r;
                   match_score :=
                     float_sub float_one (cosine_distance (row_embedding r) q) |})
      table.

(** [score > NULL] is not true of any row. *)
Definition where_score_gt (cutoff : option float) (m : match_row float) : bool :=
  match cutoff with
  | None => false
  | Some c => float_gtb (match_score m) c
  end.

Fixpoint insert_desc (m : match_row float) (l : list (match_row float))
  : list (match_row float) :=
  match l with
  | [] => [m]
  | x :: rest =>
      if float_leb (match_score x) (match_score m) then m :: l
      else x :: insert_desc m rest
  end.

(** Rows of equal score stay in table order. *)
Fixpoint order_by_score_desc (l : list (match_row float))
  : list (match_row float) :=
  match l with
  | [] => []
  | m :: rest => insert_desc m (order_by_score_desc rest)
  end.

Definition bigint_max : Z := 9223372036854775807.

(** [LIMIT NULL] is no limit; a negative limit, or one that is not a
    [bigint], is an error of the statement. *)
Definition limit (top_k : option Z) (l : list (match_row float))
  : result (list (match_row float)) :=
  match top_k with
  | None => Ok l
  | Some k =>
      if (k <? 0) || (bigint_max <? k) then Raise DatabaseError
      else Ok (firstn (Z.to_nat k) l)
  end.

Definition search_statement
    (embedding : list float) (cutoff : option float) (top_k : option Z)
    (table : list (embeddings_row vector)) : result (list (match_row float)) :=
  match vector_in embedding with
  | None => Raise DatabaseError
  | Some q =>
      limit top_k
        (order_by_score_desc (filter (where_score_gt cutoff) (matches q table)))
  end.

Definition cursor_execute_search
    (embedding : list float) (cutoff : option float) (top_k : option Z)
  : M (list (match_row float)) :=
  fun w => (search_statement embedding cutoff top_k (embeddings w),
            log SqlSelect w).

(** *** The insert statement

    INSERT INTO embeddings (text, reference_id, embedding, language, meta)
    VALUES (%s, %s, %s, %s, %s) RETURNING uuid;

    [execute] adapts its parameters before it sends the statement: a
    string parameter with a NUL character is a [ValueError] of the call
    (the text of a list of floats has none).  The engine then reads the
    embedding, and refuses the statement when it cannot. *)

Definition cursor_execute_insert
    (text reference_id : string) (embedding : list float)
    (language : option string) (meta : string) : M string :=
  fun w =>
    if has_nul text || has_nul reference_id
       || optional_has_nul language || has_nul meta
    then (Raise ValueError, log (SqlInsert text reference_id) w)
    else
      match vector_in embedding with
      | None => (Raise DatabaseError, log (SqlInsert text reference_id) w)
      | Some v =>
          let uuid := uuid_generate (inserted w) in
          (Ok uuid,
           {| embeddings :=
                embeddings w ++
                [{| row_uuid := uuid; row_text := text;
                    row_reference_id := reference_id; row_embedding := v;
                    row_language := language; row_meta := meta |}];
              inserted := S (inserted w);
              calls := calls w ++ [SqlInsert text reference_id] |})
      end.

Definition conn_commit : M unit :=
  fun w => (Ok tt, log ConnCommit w).

(** ** [app/main.py] *)

(** [SearchResult(uuid=row[0], text=row[1], reference_id=row[2],
    score=row[3])] *)
Definition SearchResult_of_row (row : match_row float) : SearchResult.t float :=
  SearchResult.mk (match_uuid row) (match_text row)
    (match_reference_id row) (match_score row).

Definition search_embeddings (data : SearchEmbeddingsBody.t float)
  : M (list (SearchResult.t float)) :=
  embedding <- model_encode_str (SearchEmbeddingsBody.query data) (Some 32) ;;
  rows <- cursor_execute_search embedding
            (SearchEmbeddingsBody.cutoff data)
            (SearchEmbeddingsBody.top_k data) ;;
  ret (map SearchResult_of_row rows).

(** The body of the [for text, e in zip(documents, output)] loop, over
    the zipped pairs, with [result] as accumulator. *)
Fixpoint create_embeddings_loop
    (data : CreateEmbeddingsBody.t dict)
    (pairs : list (string * list float))
    (result : list (EmbeddingsOutputItem.t float))
  : M (list (EmbeddingsOutputItem.t float)) :=
  match pairs with
  | [] => ret result
  | (text, e) :: rest =>
      uuid <- cursor_execute_insert text
                (CreateEmbeddingsBody.reference_id data) e
                (CreateEmbeddingsBody.language data)
                (json_dumps (CreateEmbeddingsBody.meta data)) ;;
      let result := (result ++ [EmbeddingsOutputItem.mk uuid text e])%list in
      _ <- conn_commit ;;
      create_embeddings_loop data rest result
  end.

Definition create_embeddings (data : CreateEmbeddingsBody.t dict)
  : M (CreateEmbeddingsOutput.t float) :=
  text_splitter <- lift (new_text_splitter (CreateEmbeddingsBody.chunk_size data) 20) ;;
  let documents := split_text text_splitter (CreateEmbeddingsBody.text data) in
  output <- model_encode documents (CreateEmbeddingsBody.batch_size data) ;;
  result <- create_embeddings_loop data (combine documents output) [] ;;
  ret (CreateEmbeddingsOutput.mk result).

(** Both delete handlers are called [delete_embeddings] in the source;
    the second is named after its route, [/embeddings/reference/...]. *)
Definition delete_embeddings (uuid : string) : M (list (string * string)) :=
  ret [("uuid", uuid)].

Definition delete_embeddings_reference (reference_id : string)
  : M (list (string * string)) :=
  ret [("reference_id", reference_id)].

(** ** [app/routers/encode.py] *)

Definition encode_query (data : EncodeQueryBody.t) : M (list float) :=
  let query := EncodeQueryBody.query data in
  batch_size <- lift (getattr (EncodeQueryBody_fields data) "batch_size") ;;
  model_encode_str query (as_optional_int batch_size).

Definition encode_text_corpus (data : EncodeBody.t)
  : M (list (EncodeOutput.t float)) :=
  text_splitter <- lift (new_text_splitter (EncodeBody.chunk_size data) 20) ;;
  let documents := split_text text_splitter (EncodeBody.text data) in
  output <- model_encode documents (EncodeBody.batch_size data) ;;
  ret (map (fun '(text, e) => EncodeOutput.mk text e) (combine documents output)).

Definition bulk_input_data (text_splitter : text_splitter)
    (texts : list BulkEncodeItem.t) : list (string * string) :=
  flat_map (fun item =>
              map (fun text => (BulkEncodeItem.id item, text))
                  (split_text text_splitter (BulkEncodeItem.text item)))
           texts.

(** The [for i, item in enumerate(input_data)] loop; [embeddings_list[i]]
    raises [IndexError] past the end. *)
Fixpoint bulk_encode_loop
    (embeddings_list : list (list float)) (i : nat)
    (input_data : list (string * string))
    (output : list (BulkEncodeOutput.t float))
  : result (list (BulkEncodeOutput.t float)) :=
  match input_data with
  | [] => Ok output
  | (id, text) :: rest =>
      match nth_error embeddings_list i with
      | None => Raise IndexError
      | Some e =>
          bulk_encode_loop embeddings_list (S i) rest
            (output ++ [BulkEncodeOutput.mk id text e])
      end
  end.

Definition bulk_encode (data : BulkEncodeBody.t)
  : M (list (BulkEncodeOutput.t float)) :=
  text_splitter <- lift (new_text_splitter (BulkEncodeBody.chunk_size data) 20) ;;
  let input_data := bulk_input_data text_splitter (BulkEncodeBody.texts data) in
  let raw_input := map snd input_data in
  embeddings_list <- model_encode raw_input (BulkEncodeBody.batch_size data) ;;
  lift (bulk_encode_loop embeddings_list 0 input_data []).

End Service.

(** ** Vocabulary of the properties *)

Section Vocabulary.

Context `{X : Externals}.

(** The score the search statement gives a stored record. *)
Definition score_of (q : vector) (r : embeddings_row vector) : float :=
  float_sub float_one (cosine_distance (row_embedding r) q).

(** What a stored record looks like in a search response. *)
Definition hit (q : vector) (r : embeddings_row vector) : SearchResult.t float :=
  SearchResult.mk (row_uuid r) (row_text r) (row_reference_id r) (score_of q r).

Definition score_ge (a b : match_row float) : Prop :=
  float_leb (match_score b) (match_score a) = true.

(** The row of the search statement for a stored record. *)
Definition match_of (q : vector) (r : embeddings_row vector) : match_row float :=
  {| match_uuid := row_uuid r; match_text := row_text r;
     match_reference_id := row_reference_id r; match_score := score_of q r |}.

(** The engine accepts the vector. *)
Definition storable (e : list float) : Prop := vector_in e <> None.

(** The driver adapts the string. *)
Definition adaptable (s : string) : Prop := has_nul s = false.

(** The driver adapts the strings every insert of the request passes
    besides the chunk: reference id, language and serialized meta. *)
Definition request_adaptable (data : CreateEmbeddingsBody.t dict) : Prop :=
  adaptable (CreateEmbeddingsBody.reference_id data) /\
  optional_has_nul (CreateEmbeddingsBody.language data) = false /\
  adaptable (json_dumps (CreateEmbeddingsBody.meta data)).

(** The splitter [new_text_splitter] builds for a chunk size and an
    overlap it accepts. *)
Definition chunker (size overlap : Z) : text_splitter :=
  {| separators := [newline ++ newline; newline; ". "; " "; ""];
     splitter_chunk_size := size;
     splitter_chunk_overlap := overlap |}.

(** The claim that a vector count different from the chunk count makes
    ingestion fail. *)
Definition count_mismatch_fails
    (data : CreateEmbeddingsBody.t dict) (w : world vector) : Prop :=
  forall sp out,
    new_text_splitter (CreateEmbeddingsBody.chunk_size data) 20 = Ok sp ->
    encode_list (split_text sp (CreateEmbeddingsBody.text data))
      (CreateEmbeddingsBody.batch_size data) get_device = Ok out ->
    List.length out <> List.length (split_text sp (CreateEmbeddingsBody.text data)) ->
    exists e, fst (create_embeddings data w) = Raise e.


(** The claim that ingestion is rejected before it reaches the model or
    the store: it raises, in the world it started in. *)
Definition rejected_before_any_call
    (data : CreateEmbeddingsBody.t dict) (w : world vector) : Prop :=
  exists e, create_embeddings data w = (Raise e, w).

End Vocabulary.

(** The same deployment with another [split_text]. *)
Definition with_split_text `{F : Float8} (X : Externals)
    (f : text_splitter -> string -> list string) : Externals :=
  {| dict := dict;
     json_dumps := json_dumps;
     get_device := get_device;
     encode_str := encode_str;
     encode_list := encode_list;
     split_text := f;
     vector := vector;
     vector_in := vector_in;
     cosine_distance := cosine_distance;
     uuid_generate := uuid_generate |}.

(** The same deployment with another [encode_list]. *)
Definition with_encode_list `{F : Float8} (X : Externals)
    (f : list string -> option Z -> option string -> result (list (list float)))
  : Externals :=
  {| dict := dict;
     json_dumps := json_dumps;
     get_device := get_device;
     encode_str := encode_str;
     encode_list := f;
     split_text := split_text;
     vector := vector;
     vector_in := vector_in;
     cosine_distance := cosine_distance;
     uuid_generate := uuid_generate |}.

(** ** A small deployment to run the handlers on

    Floats are rationals, vectors have three coordinates, the model is a
    table of three sentences and the splitter is the character-level
    fallback alone.  The cosine uses integer square roots: it is exact on
    the vectors below, whose norms are integers. *)

Module Scenario.

Lemma Qle_bool_total (a b : Q) : Qle_bool a b = true \/ Qle_bool b a = true.
Proof.
  destruct (Qlt_le_dec a b) as [Hlt | Hle].
  - left. apply Qle_bool_iff. apply Qlt_le_weak. exact Hlt.
  - right. apply Qle_bool_iff. exact Hle.
Qed.

Lemma Qle_bool_trans (a b c : Q) :
  Qle_bool a b = true -> Qle_bool b c = true -> Qle_bool a c = true.
Proof.
  rewrite !Qle_bool_iff. apply Qle_trans.
Qed.

#[export] Instance Q_float8 : Float8 := {|
  float := Q;
  float_one := 1%Q;
  float_sub := Qminus;
  float_leb := Qle_bool;
  float_leb_total := Qle_bool_total;
  float_leb_trans := Qle_bool_trans
|}.

Definition dot (u v : list Q) : Q :=
  fold_right Qplus 0%Q (map (fun p => Qmult (fst p) (snd p)) (combine u v)).

Definition Qsqrt (q : Q) : Q :=
  Qmake (Z.sqrt (Qnum q)) (Pos.sqrt (Qden q)).

Definition norm (u : list Q) : Q := Qsqrt (Qred (dot u u)).

Definition cosine_distance3 (u v : list Q) : Q :=
  Qred (1 - dot u v / (norm u * norm v))%Q.

Definition vector3_in (e : list Q) : option (list Q) :=
  if (List.length e =? 3)%nat then Some e else None.

Definition sentence_vector (s : string) : list Q :=
  if String.eqb s "alpha" then [1; 0; 0]%Q
  else if String.eqb s "beta" then [0; 1; 0]%Q
  else if String.eqb s "alphabet" then [3; 4; 0]%Q
  else [0; 0; 1]%Q.

(** As in the library, the batches are [range(0, len, batch_size)]: a
    step of zero is a [ValueError], a step of [None] a [TypeError]. *)
Definition table_encode {A} (batch_size : option Z) (out : A) : result A :=
  match batch_size with
  | None => Raise TypeError
  | Some b => if b =? 0 then Raise ValueError else Ok out
  end.

Fixpoint char_windows (fuel size step : nat) (s : string) : list string :=
  match fuel with
  | O => []
  | S fuel' =>
      if (String.length s =? 0)%nat then []
      else if (String.length s <=? size)%nat then [s]
      else substring 0 size s
           :: char_windows fuel' size step
                (substring step (String.length s - step) s)
  end.

Definition char_split (sp : text_splitter) (s : string) : list string :=
  let size := Z.to_nat (splitter_chunk_size sp) in
  let step := Z.to_nat (splitter_chunk_size sp - splitter_chunk_overlap sp) in
  char_windows (String.length s) size step s.

Definition quote : string := String (Ascii.ascii_of_nat 34) EmptyString.

Definition dumps (d : list (string * string)) : string :=
  "{" ++ String.concat ", "
           (map (fun kv => quote ++ fst kv ++ quote ++ ": "
                           ++ quote ++ snd kv ++ quote) d)
      ++ "}".

Definition uuid_of (n : nat) : string :=
  "uuid-" ++ NilEmpty.string_of_uint (Nat.to_uint n).

#[export] Instance deployment : Externals := {|
  dict := list (string * string);
  json_dumps := dumps;
  get_device := None;
  encode_str := fun s b _ => table_encode b (sentence_vector s);
  encode_list := fun ss b _ => table_encode b (map sentence_vector ss);
  split_text := char_split;
  vector := list Q;
  vector_in := vector3_in;
  cosine_distance := cosine_distance3;
  uuid_generate := uuid_of
|}.

(** A model that loses the vector of the last sentence. *)
Definition lossy_encode (ss : list string) (b : option Z) (dev : option string)
  : result (list (list Q)) :=
  table_encode b (removelast (map sentence_vector ss)).

Definition lossy_deployment : Externals := with_encode_list deployment lossy_encode.

Definition empty_world : world (list Q) :=
  {| embeddings := []; inserted := 0; calls := [] |}.

Definition ingest (ref text : string) : CreateEmbeddingsBody.t (list (string * string)) :=
  CreateEmbeddingsBody.mk text ref [("source", "test")] None (Some 32) (Some 1000).

Definition search_request (q : string) (lang : option string)
  : SearchEmbeddingsBody.t Q :=
  SearchEmbeddingsBody.mk q lang (Some (1 # 5)%Q) (Some 10).

(** The store after ingesting "alpha" under reference A, "beta" under B
    and "alphabet" under A. *)
Definition three_records : world (list Q) :=
  snd (create_embeddings (ingest "A" "alphabet")
    (snd (create_embeddings (ingest "B" "beta")
      (snd (create_embeddings (ingest "A" "alpha") empty_world))))).

(** The store of the delete-by-reference scenario: "alpha" under A and
    "beta" under B. *)
Definition two_records : world (list Q) :=
  snd (create_embeddings (ingest "B" "beta")
    (snd (create_embeddings (ingest "A" "alpha") empty_world))).

Definition pangram : string := "abcdefghijklmnopqrstuvwxyz0123456789".

(** Four chunks of at most 25 characters. *)
Definition ingest_pangram : CreateEmbeddingsBody.t (list (string * string)) :=
  CreateEmbeddingsBody.mk pangram "A" [] None (Some 32) (Some 25).

Definition splitter_25 : text_splitter :=
  {| separators := [newline ++ newline; newline; ". "; " "; ""];
     splitter_chunk_size := 25;
     splitter_chunk_overlap := 20 |}.

Definition splitter_1000 : text_splitter :=
  {| separators := [newline ++ newline; newline; ". "; " "; ""];
     splitter_chunk_size := 1000;
     splitter_chunk_overlap := 20 |}.

Definition ingest_batch_zero : CreateEmbeddingsBody.t (list (string * string)) :=
  CreateEmbeddingsBody.mk "alpha" "A" [] None (Some 0) (Some 1000).

Definition ingest_chunk_20 : CreateEmbeddingsBody.t (list (string * string)) :=
  CreateEmbeddingsBody.mk "alpha" "A" [] None (Some 32) (Some 20).

(** A chunker that is the character-level one at overlap 20 only. *)
Definition split_at_20 (sp : text_splitter) (s : string) : list string :=
  if splitter_chunk_overlap sp =? 20 then char_split sp s else [].

End Scenario.

(** ** Vocabulary of the ingestion properties *)

Section IngestionVocabulary.

Context `{X : Externals}.

(** The row the insert statement of [create_embeddings] writes for an
    item of its response: the item's uuid and text, the request's
    reference id, language and serialized meta, and the item's embedding
    as the engine reads it. *)
Definition stored_as
    (data : CreateEmbeddingsBody.t dict)
    (item : EmbeddingsOutputItem.t float) (r : embeddings_row vector) : Prop :=
  row_uuid r = EmbeddingsOutputItem.uuid item /\
  row_text r = EmbeddingsOutputItem.text item /\
  row_reference_id r = CreateEmbeddingsBody.reference_id data /\
  vector_in (EmbeddingsOutputItem.embedding item) = Some (row_embedding r) /\
  row_language r = CreateEmbeddingsBody.language data /\
  row_meta r = json_dumps (CreateEmbeddingsBody.meta data).

(** The statements one chunk costs: its insert, then the commit. *)
Definition chunk_statements
    (data : CreateEmbeddingsBody.t dict) (text : string) : list call :=
  [SqlInsert text (CreateEmbeddingsBody.reference_id data); ConnCommit].

(** The chunks of a bulk request, item after item. *)
Definition bulk_chunks (sp : text_splitter) (texts : list BulkEncodeItem.t)
  : list string :=
  flat_map (fun item => split_text sp (BulkEncodeItem.text item)) texts.

End IngestionVocabulary.

(** ** More requests for the small deployment *)

Module Cases.

Import Scenario.



Definition bulk_request : BulkEncodeBody.t :=
  BulkEncodeBody.mk
    [BulkEncodeItem.mk "doc-1" pangram;
     BulkEncodeItem.mk "doc-2" "";
     BulkEncodeItem.mk "doc-3" "beta"]
    (Some 32) (Some 25).

Definition bulk_single : BulkEncodeBody.t :=
  BulkEncodeBody.mk [BulkEncodeItem.mk "doc-1" pangram] (Some 32) (Some 25).

Definition encode_pangram : EncodeBody.t :=
  EncodeBody.mk pangram (Some 32) (Some 25).

Definition search_no_limit (q : string) : SearchEmbeddingsBody.t Q :=
  SearchEmbeddingsBody.mk q None (Some (1 # 5)%Q) None.

Definition search_top (q : string) (k : Z) : SearchEmbeddingsBody.t Q :=
  SearchEmbeddingsBody.mk q None (Some (1 # 5)%Q) (Some k).

Definition search_no_cutoff (q : string) : SearchEmbeddingsBody.t Q :=
  SearchEmbeddingsBody.mk q None None (Some 10).

Definition four_vectors : list (list Q) :=
  [[0; 0; 1]; [0; 0; 1]; [0; 0; 1]; [0; 0; 1]]%Q.

(** The row ingestion writes for "alphabet" under reference A in
    [three_records]. *)
Definition alphabet_row : embeddings_row (list Q) :=
  {| row_uuid := "uuid-2"; row_text := "alphabet"; row_reference_id := "A";
     row_embedding := [3; 4; 0]%Q; row_language := None;
     row_meta := dumps [("source", "test")] |}.

Definition nul : string := String Ascii.zero EmptyString.

(** The text of [pangram] with a NUL character for its last character:
    the NUL is in the fourth chunk only. *)
Definition pangram_nul : string := "abcdefghijklmnopqrstuvwxyz012345678" ++ nul.

(** The fourth chunk of that text. *)
Definition nul_chunk : string := "pqrstuvwxyz012345678" ++ nul.

Definition ingest_pangram_nul : CreateEmbeddingsBody.t (list (string * string)) :=
  CreateEmbeddingsBody.mk pangram_nul "A" [] None (Some 32) (Some 25).

Definition pangram_chunks : list string :=
  ["abcdefghijklmnopqrstuvwxy"; "fghijklmnopqrstuvwxyz0123";
   "klmnopqrstuvwxyz012345678"; "pqrstuvwxyz0123456789"].

End Cases.

(** * Properties *)

Section Properties.

Context `{X : Externals}.

(** ** Search *)

Lemma insert_desc_perm (m : match_row float) (l : list (match_row float)) :
  Permutation (insert_desc m l) (m :: l).
Proof.
  induction l as [| x rest IH]; simpl.
  - apply Permutation_refl.
  - destruct (float_leb (match_score x) (match_score m)).
    + apply Permutation_refl.
    + eapply perm_trans; [apply perm_skip, IH | apply perm_swap].
Qed.

Lemma order_by_score_desc_perm (l : list (match_row float)) :
  Permutation (order_by_score_desc l) l.
Proof.
  induction l as [| m rest IH]; simpl.
  - constructor.
  - eapply perm_trans; [apply insert_desc_perm | apply perm_skip, IH].
Qed.

Lemma insert_desc_sorted (m : match_row float) (l : list (match_row float)) :
  StronglySorted score_ge l -> StronglySorted score_ge (insert_desc m l).
Proof.
  induction l as [| x rest IH]; simpl; intros Hs.
  - constructor; constructor.
  - inversion Hs as [| ? ? Hrest Hall]; subst.
    destruct (float_leb (match_score x) (match_score m)) eqn:Hxm.
    + constructor; [exact Hs |].
      constructor; [exact Hxm |].
      eapply Forall_impl; [| exact Hall].
      intros y Hy. unfold score_ge in *.
      eapply float_leb_trans; eassumption.
    + constructor; [apply IH; exact Hrest |].
      eapply Permutation_Forall;
        [apply Permutation_sym, insert_desc_perm |].
      constructor; [| exact Hall].
      unfold score_ge.
      destruct (float_leb_total (match_score x) (match_score m)) as [H1 | H1];
        [congruence | exact H1].
Qed.

Lemma order_by_score_desc_sorted (l : list (match_row float)) :
  StronglySorted score_ge (order_by_score_desc l).
Proof.
  induction l as [| m rest IH]; simpl.
  - constructor.
  - apply insert_desc_sorted, IH.
Qed.

Lemma matches_map (q : vector) (table : list (embeddings_row vector)) :
  matches q table = map (match_of q) table.
Proof. reflexivity. Qed.

Lemma filter_map_commute {A B} (f : A -> B) (p : B -> bool) (l : list A) :
  filter p (map f l) = map f (filter (fun a => p (f a)) l).
Proof.
  induction l as [| a l IH]; simpl; [reflexivity |].
  destruct (p (f a)); simpl; rewrite IH; reflexivity.
Qed.

Lemma StronglySorted_map_inv {A B} (f : A -> B) (R : B -> B -> Prop) (l : list A) :
  StronglySorted R (map f l) -> StronglySorted (fun a b => R (f a) (f b)) l.
Proof.
  induction l as [| a l IH]; simpl; intros Hs.
  - constructor.
  - inversion Hs as [| ? ? Hrest Hall]; subst.
    constructor; [apply IH; exact Hrest |].
    rewrite Forall_map in Hall. exact Hall.
Qed.

Lemma limit_in_range (k : Z) (l : list (match_row float)) :
  0 <= k <= bigint_max -> limit (Some k) l = Ok (firstn (Z.to_nat k) l).
Proof.
  intros [Hlo Hhi]. unfold limit.
  destruct (k <? 0) eqn:H0; [apply Z.ltb_lt in H0; lia |].
  destruct (bigint_max <? k) eqn:H1; [apply Z.ltb_lt in H1; lia |].
  reflexivity.
Qed.

(** C1. For every table, query vector [q], cutoff [c] and limit [k], the
    search handler answers with the stored records whose score
    [1 - cosine_distance(embedding, q)] is strictly greater than [c],
    ranked by descending score and cut after the first [k]: there is a
    ranking of exactly those records of which the response is the first
    [k] entries.  The cutoff is a float and [k] a limit the statement
    accepts (not negative, a bigint); [q] is the query's embedding as the
    engine reads it. *)
Theorem search_embeddings_ranked
    (data : SearchEmbeddingsBody.t float) (w : world vector)
    (c : float) (k : Z) (e : list float) (q : vector) :
  SearchEmbeddingsBody.cutoff data = Some c ->
  SearchEmbeddingsBody.top_k data = Some k ->
  0 <= k <= bigint_max ->
  encode_str (SearchEmbeddingsBody.query data) (Some 32) get_device = Ok e ->
  vector_in e = Some q ->
  exists ranked : list (embeddings_row vector),
    Permutation ranked
      (filter (fun r => float_gtb (score_of q r) c) (embeddings w)) /\
    StronglySorted
      (fun a b => float_leb (score_of q b) (score_of q a) = true) ranked /\
    fst (search_embeddings data w)
    = Ok (map (hit q) (firstn (Z.to_nat k) ranked)) /\
    (List.length (firstn (Z.to_nat k) ranked) <= Z.to_nat k)%nat /\
    embeddings (snd (search_embeddings data w)) = embeddings w.
Proof.
  intros Hc Hk Hrange Henc Hvec.
  set (kept := filter (fun r => float_gtb (score_of q r) c) (embeddings w)).
  assert (Hfilter :
            filter (where_score_gt (Some c)) (matches q (embeddings w))
            = map (match_of q) kept).
  { rewrite matches_map, filter_map_commute. reflexivity. }
  destruct (Permutation_map_inv (match_of q) kept
              (order_by_score_desc_perm (map (match_of q) kept)))
    as (ranked & Hranked & Hperm).
  exists ranked.
  split; [apply Permutation_sym; exact Hperm |].
  split.
  { pose proof (order_by_score_desc_sorted (map (match_of q) kept)) as Hs.
    rewrite Hranked in Hs.
    apply StronglySorted_map_inv in Hs. exact Hs. }
  split.
  { unfold search_embeddings, bind, model_encode_str, cursor_execute_search,
      ret, search_statement.
    rewrite Henc. simpl. rewrite Hvec, Hc, Hk, Hfilter, Hranked.
    rewrite limit_in_range by exact Hrange. simpl.
    rewrite firstn_map, map_map. reflexivity. }
  split.
  { apply firstn_le_length. }
  unfold search_embeddings, bind, model_encode_str, cursor_execute_search,
    ret, search_statement.
  rewrite Henc. simpl. rewrite Hvec, Hc, Hk.
  rewrite limit_in_range by exact Hrange. reflexivity.
Qed.

(** ** Ingestion *)

Lemma map_fst_combine_firstn {A B} (l : list A) (l' : list B) :
  map fst (combine l l') = firstn (List.length l') l.
Proof.
  revert l'. induction l as [| a l IH]; intros [| b l']; simpl;
    try reflexivity.
  rewrite IH. reflexivity.
Qed.

Lemma map_snd_combine_firstn {A B} (l : list A) (l' : list B) :
  map snd (combine l l') = firstn (List.length l) l'.
Proof.
  revert l'. induction l as [| a l IH]; intros [| b l']; simpl;
    try reflexivity.
  rewrite IH. reflexivity.
Qed.

(** The strings of an insert are adapted when those of the request and
    the chunk are. *)
Lemma insert_adapted (data : CreateEmbeddingsBody.t dict) (text : string) :
  request_adaptable data ->
  adaptable text ->
  has_nul text || has_nul (CreateEmbeddingsBody.reference_id data)
  || optional_has_nul (CreateEmbeddingsBody.language data)
  || has_nul (json_dumps (CreateEmbeddingsBody.meta data)) = false.
Proof.
  intros (Href & Hlang & Hmeta) Htext. unfold adaptable in *.
  rewrite Htext, Href, Hlang, Hmeta. reflexivity.
Qed.

(** One turn of the loop. *)
Lemma create_embeddings_loop_cons
    (data : CreateEmbeddingsBody.t dict) (text : string) (e : list float)
    (rest : list (string * list float))
    (acc : list (EmbeddingsOutputItem.t float)) (w : world vector) :
  create_embeddings_loop data ((text, e) :: rest) acc w
  = if has_nul text || has_nul (CreateEmbeddingsBody.reference_id data)
       || optional_has_nul (CreateEmbeddingsBody.language data)
       || has_nul (json_dumps (CreateEmbeddingsBody.meta data))
    then (Raise ValueError,
          log (SqlInsert text (CreateEmbeddingsBody.reference_id data)) w)
    else
      match vector_in e with
      | None =>
          (Raise DatabaseError,
           log (SqlInsert text (CreateEmbeddingsBody.reference_id data)) w)
      | Some v =>
          create_embeddings_loop data rest
            (acc ++ [EmbeddingsOutputItem.mk (uuid_generate (inserted w)) text e])
            {| embeddings :=
                 embeddings w ++
                 [{| row_uuid := uuid_generate (inserted w);
                     row_text := text;
                     row_reference_id := CreateEmbeddingsBody.reference_id data;
                     row_embedding := v;
                     row_language := CreateEmbeddingsBody.language data;
                     row_meta := json_dumps (CreateEmbeddingsBody.meta data) |}];
               inserted := S (inserted w);
               calls := calls w ++ chunk_statements data text |}
      end.
Proof.
  simpl. unfold bind, cursor_execute_insert, conn_commit, log, chunk_statements.
  destruct (has_nul text || has_nul (CreateEmbeddingsBody.reference_id data)
            || optional_has_nul (CreateEmbeddingsBody.language data)
            || has_nul (json_dumps (CreateEmbeddingsBody.meta data)));
    [reflexivity |].
  destruct (vector_in e); simpl; [rewrite <- app_assoc |]; reflexivity.
Qed.

(** The store accepts the insert of the pair. *)
Lemma accepted_combine (documents : list string) (out : list (list float)) :
  Forall adaptable documents ->
  Forall storable out ->
  Forall (fun p : string * list float => adaptable (fst p) /\ storable (snd p))
         (combine documents out).
Proof.
  intros Hdocs Hout. rewrite Forall_forall in *.
  intros [text e] Hin. simpl. split.
  - apply Hdocs. eapply in_combine_l. exact Hin.
  - apply Hout. eapply in_combine_r. exact Hin.
Qed.

(** A run of the loop over pairs the store accepts: the items are the
    pairs, each item has its row, the rows go to the end of the table and
    every pair costs one insert and one commit. *)
Lemma create_embeddings_loop_detail
    (data : CreateEmbeddingsBody.t dict) (pairs : list (string * list float)) :
  request_adaptable data ->
  Forall (fun p => adaptable (fst p) /\ storable (snd p)) pairs ->
  forall (acc : list (EmbeddingsOutputItem.t float)) (w : world vector),
  exists items rows,
    create_embeddings_loop data pairs acc w
    = (Ok (acc ++ items)%list,
       {| embeddings := embeddings w ++ rows;
          inserted := (inserted w + List.length pairs)%nat;
          calls := calls w ++ flat_map (chunk_statements data) (map fst pairs) |}) /\
    map (fun i => (EmbeddingsOutputItem.text i, EmbeddingsOutputItem.embedding i))
        items = pairs /\
    Forall2 (stored_as data) items rows.
Proof.
  intros Hreq.
  induction 1 as [| [text e] rest [Ht He] Hrest IH]; intros acc w.
  - exists [], []. destruct w as [tbl n cs]. simpl.
    rewrite !app_nil_r, Nat.add_0_r. repeat split. constructor.
  - simpl in Ht, He. unfold storable in He.
    rewrite create_embeddings_loop_cons, (insert_adapted Hreq Ht).
    destruct (vector_in e) as [v |] eqn:Hv; [| congruence].
    match goal with
    | |- context [create_embeddings_loop data rest ?acc' ?w1] =>
        destruct (IH acc' w1) as (items & rows & Hrun & Hpairs & Hrows)
    end.
    eexists (_ :: items), (_ :: rows).
    rewrite Hrun. cbn [embeddings inserted calls].
    rewrite <- !app_assoc. cbn [map fst flat_map List.length app].
    rewrite Nat.add_succ_r, Hpairs.
    split; [reflexivity |]. split; [reflexivity |].
    constructor; [| exact Hrows].
    unfold stored_as. simpl. repeat split; try reflexivity. exact Hv.
Qed.


Lemma items_of_pairs
    (items : list (EmbeddingsOutputItem.t float))
    (documents : list string) (out : list (list float)) :
  map (fun i => (EmbeddingsOutputItem.text i, EmbeddingsOutputItem.embedding i))
      items = combine documents out ->
  map EmbeddingsOutputItem.text items = firstn (List.length out) documents /\
  map EmbeddingsOutputItem.embedding items = firstn (List.length documents) out.
Proof.
  intros Hpairs.
  rewrite <- map_fst_combine_firstn, <- map_snd_combine_firstn, <- Hpairs.
  rewrite !map_map. split; reflexivity.
Qed.

Lemma create_embeddings_run
    (data : CreateEmbeddingsBody.t dict) (w : world vector)
    (sp : text_splitter) (out : list (list float)) :
  new_text_splitter (CreateEmbeddingsBody.chunk_size data) 20 = Ok sp ->
  encode_list (split_text sp (CreateEmbeddingsBody.text data))
    (CreateEmbeddingsBody.batch_size data) get_device = Ok out ->
  create_embeddings data w
  = match create_embeddings_loop data
            (combine (split_text sp (CreateEmbeddingsBody.text data)) out) []
            (log (ModelEncode (split_text sp (CreateEmbeddingsBody.text data))
                    (CreateEmbeddingsBody.batch_size data)) w) with
    | (Ok result, w') => (Ok (CreateEmbeddingsOutput.mk result), w')
    | (Raise e, w') => (Raise e, w')
    end.
Proof.
  intros Hsp Henc.
  unfold create_embeddings, bind, lift, model_encode, ret.
  rewrite Hsp, Henc. reflexivity.
Qed.

(** Whatever the loop does, it only adds to the log of calls. *)
Lemma create_embeddings_loop_calls
    (data : CreateEmbeddingsBody.t dict) (pairs : list (string * list float)) :
  forall (acc : list (EmbeddingsOutputItem.t float)) (w : world vector),
  exists later,
    calls (snd (create_embeddings_loop data pairs acc w))
    = (calls w ++ later)%list.
Proof.
  induction pairs as [| [text e] rest IH]; intros acc w.
  - exists []. simpl. rewrite app_nil_r. reflexivity.
  - rewrite create_embeddings_loop_cons.
    destruct (has_nul text || has_nul (CreateEmbeddingsBody.reference_id data)
              || optional_has_nul (CreateEmbeddingsBody.language data)
              || has_nul (json_dumps (CreateEmbeddingsBody.meta data)));
      [simpl; eexists; reflexivity |].
    destruct (vector_in e) as [v |].
    + match goal with
      | |- context [create_embeddings_loop data rest ?acc' ?w1] =>
          destruct (IH acc' w1) as (later & Hlater)
      end.
      rewrite Hlater. cbn [calls]. rewrite <- !app_assoc.
      eexists. reflexivity.
    + simpl. eexists. reflexivity.
Qed.

Lemma new_text_splitter_overlap
    (chunk_size : option Z) (overlap : Z) (sp : text_splitter) :
  new_text_splitter chunk_size overlap = Ok sp ->
  splitter_chunk_overlap sp = overlap.
Proof.
  unfold new_text_splitter, RecursiveCharacterTextSplitter.
  destruct chunk_size as [size |]; [| discriminate].
  destruct (size <=? overlap); [discriminate |].
  intros Heq. injection Heq as <-. reflexivity.
Qed.

Lemma encode_text_corpus_run
    (body : EncodeBody.t) (w : world vector)
    (sp : text_splitter) (out : list (list float)) :
  new_text_splitter (EncodeBody.chunk_size body) 20 = Ok sp ->
  encode_list (split_text sp (EncodeBody.text body))
    (EncodeBody.batch_size body) get_device = Ok out ->
  encode_text_corpus body w
  = (Ok (map (fun p => EncodeOutput.mk (fst p) (snd p))
             (combine (split_text sp (EncodeBody.text body)) out)),
     log (ModelEncode (split_text sp (EncodeBody.text body))
            (EncodeBody.batch_size body)) w).
Proof.
  intros Hsp Henc.
  unfold encode_text_corpus, bind, lift, model_encode, ret.
  rewrite Hsp, Henc. f_equal. f_equal.
  apply map_ext. intros [t e]. reflexivity.
Qed.

(** The bulk encoder keeps the order of its flattened input as well:
    entry [i] has the id and text of the [i]-th chunk and the [i]-th
    vector. *)
Lemma bulk_encode_loop_aligned
    (embeddings_list : list (list float)) (input_data : list (string * string)) :
  forall (i : nat) (output : list (BulkEncodeOutput.t float)),
    (i + List.length input_data <= List.length embeddings_list)%nat ->
    exists rest,
      bulk_encode_loop embeddings_list i input_data output
      = Ok (output ++ rest)%list /\
      map (fun o => (BulkEncodeOutput.id o, BulkEncodeOutput.text o)) rest
      = input_data /\
      map BulkEncodeOutput.embedding rest
      = firstn (List.length input_data) (skipn i embeddings_list).
Proof.
  induction input_data as [| [id text] more IH]; intros i output Hlen.
  - exists []. simpl. rewrite app_nil_r. repeat split; reflexivity.
  - simpl in Hlen. simpl.
    destruct (nth_error embeddings_list i) as [e |] eqn:Hnth.
    + destruct (IH (S i) (output ++ [BulkEncodeOutput.mk id text e])%list)
        as (rest & Hrun & Hid & Hemb); [lia |].
      exists (BulkEncodeOutput.mk id text e :: rest).
      rewrite Hrun, <- app_assoc. simpl. rewrite Hid, Hemb.
      repeat split; try reflexivity.
      clear - Hnth. revert i Hnth.
      induction embeddings_list as [| x xs IHx]; intros [| i] Hnth;
        simpl in *; try discriminate.
      * injection Hnth as ->. reflexivity.
      * apply IHx. exact Hnth.
    + apply nth_error_None in Hnth. lia.
Qed.

Lemma bulk_raw_input (sp : text_splitter) (texts : list BulkEncodeItem.t) :
  map snd (bulk_input_data sp texts) = bulk_chunks sp texts.
Proof.
  unfold bulk_input_data, bulk_chunks.
  induction texts as [| item texts IH]; simpl; [reflexivity |].
  rewrite map_app, IH, map_map. simpl. rewrite map_id. reflexivity.
Qed.

Lemma bulk_input_data_length (sp : text_splitter) (texts : list BulkEncodeItem.t) :
  List.length (bulk_input_data sp texts) = List.length (bulk_chunks sp texts).
Proof.
  rewrite <- bulk_raw_input, length_map. reflexivity.
Qed.

Lemma bulk_encode_run
    (data : BulkEncodeBody.t) (w : world vector)
    (sp : text_splitter) (emb : list (list float)) :
  new_text_splitter (BulkEncodeBody.chunk_size data) 20 = Ok sp ->
  encode_list (bulk_chunks sp (BulkEncodeBody.texts data))
    (BulkEncodeBody.batch_size data) get_device = Ok emb ->
  bulk_encode data w
  = (bulk_encode_loop emb 0
       (bulk_input_data sp (BulkEncodeBody.texts data)) [],
     log (ModelEncode (bulk_chunks sp (BulkEncodeBody.texts data))
            (BulkEncodeBody.batch_size data)) w).
Proof.
  intros Hsp Henc.
  unfold bulk_encode, bind, lift, model_encode.
  rewrite Hsp, bulk_raw_input, Henc. reflexivity.
Qed.


(** ** Mismatched vector counts *)

(** C5, as the code has it. When the model returns [out] for the chunks,
    whatever the two lengths, direct encode and ingestion do not fail on
    that account: they pair chunks and vectors position by position as
    far as both lists go and answer with those items; ingestion stores
    exactly the rows of those items (when the store accepts every insert:
    vectors the engine reads, strings the driver adapts).  When the model
    raises, both operations raise what it raised and nothing is
    stored. *)
Theorem mismatched_count_is_truncated
    (text reference_id : string) (meta : dict) (language : option string)
    (batch_size chunk_size : option Z) (w : world vector) (sp : text_splitter) :
  new_text_splitter chunk_size 20 = Ok sp ->
  (forall out,
      encode_list (split_text sp text) batch_size get_device = Ok out ->
      (exists outs,
          fst (encode_text_corpus (EncodeBody.mk text batch_size chunk_size) w)
          = Ok outs /\
          map EncodeOutput.text outs
          = firstn (List.length out) (split_text sp text) /\
          map EncodeOutput.embedding outs
          = firstn (List.length (split_text sp text)) out) /\
      (request_adaptable
         (CreateEmbeddingsBody.mk text reference_id meta language
            batch_size chunk_size) ->
       Forall adaptable (split_text sp text) ->
       Forall storable out ->
       exists items rows,
         fst (create_embeddings
                (CreateEmbeddingsBody.mk text reference_id meta language
                   batch_size chunk_size) w)
         = Ok (CreateEmbeddingsOutput.mk items) /\
         map EmbeddingsOutputItem.text items
         = firstn (List.length out) (split_text sp text) /\
         map EmbeddingsOutputItem.embedding items
         = firstn (List.length (split_text sp text)) out /\
         embeddings
           (snd (create_embeddings
                   (CreateEmbeddingsBody.mk text reference_id meta language
                      batch_size chunk_size) w))
         = (embeddings w ++ rows)%list /\
         Forall2 (stored_as
                    (CreateEmbeddingsBody.mk text reference_id meta language
                       batch_size chunk_size))
                 items rows)) /\
  (forall e,
      encode_list (split_text sp text) batch_size get_device = Raise e ->
      fst (encode_text_corpus (EncodeBody.mk text batch_size chunk_size) w)
      = Raise e /\
      fst (create_embeddings
             (CreateEmbeddingsBody.mk text reference_id meta language
                batch_size chunk_size) w)
      = Raise e /\
      embeddings
        (snd (create_embeddings
                (CreateEmbeddingsBody.mk text reference_id meta language
                   batch_size chunk_size) w))
      = embeddings w).
Proof.
  intros Hsp.
  set (data := CreateEmbeddingsBody.mk text reference_id meta language
                 batch_size chunk_size).
  split.
  - intros out Henc. split.
    + rewrite (encode_text_corpus_run (EncodeBody.mk text batch_size chunk_size)
                 w Hsp Henc).
      eexists. split; [reflexivity |].
      cbn [EncodeBody.text]. rewrite !map_map.
      rewrite <- map_fst_combine_firstn, <- map_snd_combine_firstn.
      split; reflexivity.
    + intros Hreq Hdocs Hstore.
      rewrite (create_embeddings_run data w Hsp Henc).
      destruct (create_embeddings_loop_detail Hreq
                  (accepted_combine Hdocs Hstore)
                  [] (log (ModelEncode (split_text sp text) batch_size) w))
        as (items & rows & Hrun & Hpairs & Hrows).
      simpl in Hrun.
      cbn [CreateEmbeddingsBody.text CreateEmbeddingsBody.batch_size data].
      rewrite Hrun. cbn [fst snd embeddings].
      destruct (items_of_pairs _ _ _ Hpairs) as [Ht He].
      exists items, rows.
      split; [reflexivity |]. split; [exact Ht |]. split; [exact He |].
      split; [reflexivity | exact Hrows].
  - intros e Henc.
    unfold encode_text_corpus, create_embeddings, bind, lift, model_encode.
    simpl. rewrite Hsp, Henc. repeat split.
Qed.

(** ** Configuration *)

(** C6, as the code has it. A request whose chunk size is at most the
    overlap of 20 is rejected by the splitter's constructor, the first
    thing the handler does: the world is the one the handler started in,
    so neither the model nor the store was reached.  The batch size is
    not looked at by the handler: with a chunk size above 20 the model is
    called on the chunks with the batch size of the request, whatever it
    is, zero included. *)
Theorem chunk_size_checked_batch_size_not
    (data : CreateEmbeddingsBody.t dict) (w : world vector) (size : Z) :
  CreateEmbeddingsBody.chunk_size data = Some size ->
  (size <= 20 -> create_embeddings data w = (Raise ValueError, w)) /\
  (20 < size ->
   exists sp later,
     new_text_splitter (Some size) 20 = Ok sp /\
     calls (snd (create_embeddings data w))
     = (calls w
        ++ ModelEncode (split_text sp (CreateEmbeddingsBody.text data))
             (CreateEmbeddingsBody.batch_size data)
        :: later)%list).
Proof.
  intros Hsize. split; intros Hcmp.
  - unfold create_embeddings, bind, lift, new_text_splitter,
      RecursiveCharacterTextSplitter.
    rewrite Hsize.
    destruct (size <=? 20) eqn:Hle; [reflexivity |].
    apply Z.leb_gt in Hle. lia.
  - assert (Hsp : exists sp, new_text_splitter (Some size) 20 = Ok sp).
    { unfold new_text_splitter, RecursiveCharacterTextSplitter.
      destruct (size <=? 20) eqn:Hle; [apply Z.leb_le in Hle; lia |].
      eexists. reflexivity. }
    destruct Hsp as (sp & Hsp). exists sp.
    unfold create_embeddings, bind at 1, lift. rewrite Hsize, Hsp.
    unfold bind at 1, model_encode.
    destruct (encode_list (split_text sp (CreateEmbeddingsBody.text data))
                (CreateEmbeddingsBody.batch_size data) get_device)
      as [out | e].
    + unfold bind, ret.
      match goal with
      | |- context [create_embeddings_loop data ?ps ?acc ?w1] =>
          destruct (create_embeddings_loop_calls data ps acc w1)
            as (later & Hlater);
          destruct (create_embeddings_loop data ps acc w1) as [[res | e] w']
      end; simpl in *; rewrite Hlater, <- app_assoc; simpl;
        exists later; split; reflexivity.
    + simpl. exists []. split; reflexivity.
Qed.

(** ** Empty chunk list *)

(** C10. An ingestion call whose chunker output is the empty sequence
    leaves the table as it was: no row is added, no insert statement is
    issued; and once the model returns from its call on the empty list,
    the response is the empty list of items. *)
Theorem create_embeddings_no_chunks
    (data : CreateEmbeddingsBody.t dict) (w : world vector) (sp : text_splitter) :
  new_text_splitter (CreateEmbeddingsBody.chunk_size data) 20 = Ok sp ->
  split_text sp (CreateEmbeddingsBody.text data) = [] ->
  embeddings (snd (create_embeddings data w)) = embeddings w /\
  inserted (snd (create_embeddings data w)) = inserted w /\
  filter is_insert (calls (snd (create_embeddings data w)))
  = filter is_insert (calls w) /\
  (forall out,
      encode_list [] (CreateEmbeddingsBody.batch_size data) get_device = Ok out ->
      fst (create_embeddings data w) = Ok (CreateEmbeddingsOutput.mk [])).
Proof.
  intros Hsp Hdocs.
  unfold create_embeddings, bind, lift, model_encode, ret.
  rewrite Hsp, Hdocs.
  destruct (encode_list [] (CreateEmbeddingsBody.batch_size data) get_device)
    as [out | e]; simpl; rewrite filter_app; simpl; rewrite app_nil_r;
    repeat split; try reflexivity.
  intros out' Hout. discriminate Hout.
Qed.

(** ** Overlap *)

Lemma new_text_splitter_accepts (size overlap : Z) :
  overlap < size ->
  new_text_splitter (Some size) overlap = Ok (chunker size overlap).
Proof.
  intros Hlt. unfold new_text_splitter, RecursiveCharacterTextSplitter, chunker.
  destruct (size <=? overlap) eqn:Hle; [apply Z.leb_le in Hle; lia |].
  reflexivity.
Qed.

(** C8. The chunks of ingestion and of direct encode are those of a
    splitter of overlap 20, whatever the request: with a chunk size above
    20, both handlers call the model on the chunks that the splitter of
    that chunk size and overlap 20 makes of the text, and the texts of
    their responses are those chunks, in order (as far as the model
    returned vectors).  The request models have no overlap field, and a
    chunker that differs from the deployment's at other overlaps only
    changes neither the result nor the world of either handler. *)
Theorem overlap_is_fixed_at_20
    (f : text_splitter -> string -> list string)
    (text reference_id : string) (meta : dict) (language : option string)
    (batch_size : option Z) (size : Z) (w : world vector)
    (out : list (list float)) :
  20 < size ->
  encode_list (split_text (chunker size 20) text) batch_size get_device = Ok out ->
  (exists outs,
      encode_text_corpus (EncodeBody.mk text batch_size (Some size)) w
      = (Ok outs,
         log (ModelEncode (split_text (chunker size 20) text) batch_size) w) /\
      map EncodeOutput.text outs
      = firstn (List.length out) (split_text (chunker size 20) text)) /\
  (exists later,
      calls (snd (create_embeddings
                    (CreateEmbeddingsBody.mk text reference_id meta language
                       batch_size (Some size)) w))
      = (calls w
         ++ ModelEncode (split_text (chunker size 20) text) batch_size
         :: later)%list) /\
  (request_adaptable
     (CreateEmbeddingsBody.mk text reference_id meta language
        batch_size (Some size)) ->
   Forall adaptable (split_text (chunker size 20) text) ->
   Forall storable out ->
   exists items,
     fst (create_embeddings
            (CreateEmbeddingsBody.mk text reference_id meta language
               batch_size (Some size)) w)
     = Ok (CreateEmbeddingsOutput.mk items) /\
     map EmbeddingsOutputItem.text items
     = firstn (List.length out) (split_text (chunker size 20) text)) /\
  ((forall sp s, splitter_chunk_overlap sp = 20 -> f sp s = split_text sp s) ->
   create_embeddings (X := with_split_text X f)
     (CreateEmbeddingsBody.mk text reference_id meta language
        batch_size (Some size)) w
   = create_embeddings
       (CreateEmbeddingsBody.mk text reference_id meta language
          batch_size (Some size)) w /\
   encode_text_corpus (X := with_split_text X f)
     (EncodeBody.mk text batch_size (Some size)) w
   = encode_text_corpus (EncodeBody.mk text batch_size (Some size)) w).
Proof.
  intros Hsize Henc.
  pose proof (new_text_splitter_accepts Hsize) as Hsp.
  set (data := CreateEmbeddingsBody.mk text reference_id meta language
                 batch_size (Some size)).
  set (body := EncodeBody.mk text batch_size (Some size)).
  split.
  { rewrite (encode_text_corpus_run body w Hsp Henc).
    eexists. split; [reflexivity |].
    cbn [EncodeBody.text body]. rewrite map_map.
    rewrite <- map_fst_combine_firstn. reflexivity. }
  split.
  { rewrite (create_embeddings_run data w Hsp Henc).
    match goal with
    | |- context [create_embeddings_loop data ?ps ?acc ?w1] =>
        destruct (create_embeddings_loop_calls data ps acc w1)
          as (later & Hlater);
        destruct (create_embeddings_loop data ps acc w1) as [[res | e] w']
    end; simpl in *; rewrite Hlater, <- app_assoc; simpl;
      exists later; reflexivity. }
  split.
  { intros Hreq Hdocs Hstore.
    rewrite (create_embeddings_run data w Hsp Henc).
    destruct (create_embeddings_loop_detail Hreq
                (accepted_combine Hdocs Hstore)
                [] (log (ModelEncode (split_text (chunker size 20) text)
                           batch_size) w))
      as (items & rows & Hrun & Hpairs & _).
    simpl in Hrun.
    cbn [CreateEmbeddingsBody.text CreateEmbeddingsBody.batch_size data].
    rewrite Hrun. cbn [fst].
    destruct (items_of_pairs _ _ _ Hpairs) as [Ht _].
    exists items. split; [reflexivity | exact Ht]. }
  intros Hagree. split.
  - unfold create_embeddings, bind, lift, model_encode, with_split_text.
    cbn [dict get_device encode_list split_text vector].
    destruct (new_text_splitter (CreateEmbeddingsBody.chunk_size data) 20)
      as [sp | e] eqn:Hsp'; [| reflexivity].
    apply new_text_splitter_overlap in Hsp'.
    rewrite (Hagree sp _ Hsp'). reflexivity.
  - unfold encode_text_corpus, bind, lift, model_encode, with_split_text.
    cbn [dict get_device encode_list split_text vector].
    destruct (new_text_splitter (EncodeBody.chunk_size body) 20)
      as [sp | e] eqn:Hsp'; [| reflexivity].
    apply new_text_splitter_overlap in Hsp'.
    rewrite (Hagree sp _ Hsp'). reflexivity.
Qed.

(** ** Language *)

(** C9. Two search requests with the same query, cutoff and limit give
    the same response and leave the same world, whatever their language
    fields are. *)
Theorem search_embeddings_ignores_language
    (d1 d2 : SearchEmbeddingsBody.t float) (w : world vector) :
  SearchEmbeddingsBody.query d1 = SearchEmbeddingsBody.query d2 ->
  SearchEmbeddingsBody.cutoff d1 = SearchEmbeddingsBody.cutoff d2 ->
  SearchEmbeddingsBody.top_k d1 = SearchEmbeddingsBody.top_k d2 ->
  search_embeddings d1 w = search_embeddings d2 w.
Proof.
  intros Hq Hc Hk. unfold search_embeddings.
  rewrite Hq, Hc, Hk. reflexivity.
Qed.

(** ** Query encoding *)

(** C4, on the code. [EncodeQueryBody] declares [query] only, and the
    handler reads [data.batch_size]: for every query the call raises
    [AttributeError] before the model is reached. *)
Theorem encode_query_always_raises (data : EncodeQueryBody.t) (w : world vector) :
  encode_query data w = (Raise (AttributeError "batch_size"), w).
Proof.
  unfold encode_query, bind, lift, getattr. reflexivity.
Qed.

(** ** Deletion *)

Lemma delete_embeddings_world (uuid : string) (w : world vector) :
  delete_embeddings uuid w = (Ok [("uuid", uuid)], w).
Proof. reflexivity. Qed.

Lemma delete_embeddings_reference_world (reference_id : string) (w : world vector) :
  delete_embeddings_reference reference_id w
  = (Ok [("reference_id", reference_id)], w).
Proof. reflexivity. Qed.

End Properties.

(** * Runs on the small deployment *)

Import Scenario.

(** The ranking theorem on the three-record store, query "alpha", cutoff
    1/5 and limit 10. *)
Lemma search_embeddings_ranked_witness :
  SearchEmbeddingsBody.cutoff (search_request "alpha" None) = Some (1 # 5)%Q /\
  SearchEmbeddingsBody.top_k (search_request "alpha" None) = Some 10 /\
  0 <= 10 <= bigint_max /\
  encode_str "alpha" (Some 32) get_device = Ok [1; 0; 0]%Q /\
  vector_in [1; 0; 0]%Q = Some [1; 0; 0]%Q /\
  exists ranked : list (embeddings_row (list Q)),
    Permutation ranked
      (filter (fun r => float_gtb (score_of [1; 0; 0]%Q r) (1 # 5)%Q)
              (embeddings three_records)) /\
    StronglySorted
      (fun a b => float_leb (score_of [1; 0; 0]%Q b) (score_of [1; 0; 0]%Q a) = true)
      ranked /\
    fst (search_embeddings (search_request "alpha" None) three_records)
    = Ok (map (hit [1; 0; 0]%Q) (firstn (Z.to_nat 10) ranked)) /\
    (List.length (firstn (Z.to_nat 10) ranked) <= Z.to_nat 10)%nat /\
    embeddings (snd (search_embeddings (search_request "alpha" None) three_records))
    = embeddings three_records.
Proof.
  assert (Hrange : 0 <= 10 <= bigint_max) by (unfold bigint_max; lia).
  repeat (split; [first [reflexivity | exact Hrange] |]).
  apply (@search_embeddings_ranked Q_float8 deployment
           (search_request "alpha" None) three_records
           (1 # 5)%Q 10 [1; 0; 0]%Q [1; 0; 0]%Q);
    first [reflexivity | exact Hrange].
Defined.

(** The scenario of the store: one record [1,0,0], searched with
    [1,0,0], cutoff 1/5, limit 10, is found with score 1. *)
Example search_one_record :
  fst (search_embeddings (search_request "alpha" None)
         (snd (create_embeddings (ingest "A" "alpha") empty_world)))
  = Ok [SearchResult.mk "uuid-0" "alpha" "A" 1%Q].
Proof. vm_compute. reflexivity. Qed.

(** C2, on the code. The store holds a record with uuid "uuid-0"; the
    delete-by-uuid handler acknowledges the request and the record is
    still there: the table is the one before the call. *)
Theorem delete_embeddings_keeps_record :
  existsb (fun r => String.eqb (row_uuid r) "uuid-0") (embeddings three_records)
  = true /\
  fst (delete_embeddings "uuid-0" three_records) = Ok [("uuid", "uuid-0")] /\
  embeddings (snd (delete_embeddings "uuid-0" three_records))
  = embeddings three_records /\
  existsb (fun r => String.eqb (row_uuid r) "uuid-0")
    (embeddings (snd (delete_embeddings "uuid-0" three_records)))
  = true.
Proof.
  rewrite delete_embeddings_world. simpl fst. simpl snd.
  repeat split; reflexivity.
Qed.

(** C3, on the code. Records [1,0,0] under reference A and [0,1,0] under
    reference B; after the delete-by-reference handler has acknowledged
    the deletion of A, a search with [1,0,0] still returns the record of
    reference A, with score 1. *)
Theorem delete_by_reference_keeps_records :
  fst (delete_embeddings_reference "A" two_records) = Ok [("reference_id", "A")] /\
  fst (search_embeddings (search_request "alpha" None)
         (snd (delete_embeddings_reference "A" two_records)))
  = Ok [SearchResult.mk "uuid-0" "alpha" "A" 1%Q].
Proof.
  rewrite delete_embeddings_reference_world. simpl fst. simpl snd.
  split; [reflexivity |]. vm_compute. reflexivity.
Qed.

(** C5 as stated does not hold. The model returns three vectors for four
    chunks; ingestion answers with three items and stores three rows,
    and the fourth chunk is in neither. *)
Lemma count_mismatch_is_not_a_failure :
  ~ count_mismatch_fails (X := lossy_deployment) ingest_pangram empty_world /\
  List.length (split_text (Externals := lossy_deployment) splitter_25 pangram) = 4%nat /\
  encode_list (Externals := lossy_deployment)
    (split_text (Externals := lossy_deployment) splitter_25 pangram) (Some 32) None
  = Ok [[0; 0; 1]; [0; 0; 1]; [0; 0; 1]]%Q /\
  fst (create_embeddings (X := lossy_deployment) ingest_pangram empty_world)
  = Ok (CreateEmbeddingsOutput.mk
          [EmbeddingsOutputItem.mk "uuid-0" "abcdefghijklmnopqrstuvwxy" [0; 0; 1]%Q;
           EmbeddingsOutputItem.mk "uuid-1" "fghijklmnopqrstuvwxyz0123" [0; 0; 1]%Q;
           EmbeddingsOutputItem.mk "uuid-2" "klmnopqrstuvwxyz012345678" [0; 0; 1]%Q]) /\
  map row_text
    (embeddings (snd (create_embeddings (X := lossy_deployment)
                        ingest_pangram empty_world)))
  = ["abcdefghijklmnopqrstuvwxy"; "fghijklmnopqrstuvwxyz0123";
     "klmnopqrstuvwxyz012345678"].
Proof.
  split.
  - intros Hclaim.
    destruct (Hclaim splitter_25 [[0; 0; 1]; [0; 0; 1]; [0; 0; 1]]%Q)
      as [e He]; try reflexivity.
    + vm_compute. discriminate.
    + vm_compute in He. discriminate He.
  - repeat split; vm_compute; reflexivity.
Qed.

(** The truncation theorem on the four chunks of the same text: the
    lossy model returns three vectors, the table model fails at batch
    size zero. *)
Lemma mismatched_count_is_truncated_witness :
  new_text_splitter (Some 25) 20 = Ok splitter_25 /\
  (exists outs,
      fst (encode_text_corpus (X := lossy_deployment)
             (EncodeBody.mk pangram (Some 32) (Some 25)) empty_world)
      = Ok outs /\
      map EncodeOutput.text outs
      = firstn 3 (split_text (Externals := lossy_deployment) splitter_25 pangram)) /\
  (exists items rows,
      fst (create_embeddings (X := lossy_deployment) ingest_pangram three_records)
      = Ok (CreateEmbeddingsOutput.mk items) /\
      map EmbeddingsOutputItem.text items
      = firstn 3 (split_text (Externals := lossy_deployment) splitter_25 pangram) /\
      embeddings (snd (create_embeddings (X := lossy_deployment)
                         ingest_pangram three_records))
      = (embeddings three_records ++ rows)%list /\
      Forall2 (stored_as (X := lossy_deployment) ingest_pangram) items rows) /\
  fst (create_embeddings
         (CreateEmbeddingsBody.mk pangram "A" [] None (Some 0) (Some 25))
         three_records)
  = Raise ValueError.
Proof.
  pose proof (@mismatched_count_is_truncated Q_float8 lossy_deployment
                pangram "A" [] None (Some 32) (Some 25) three_records
                splitter_25 eq_refl) as [Hok _].
  pose proof (@mismatched_count_is_truncated Q_float8 lossy_deployment
                pangram "A" [] None (Some 32) (Some 25) empty_world
                splitter_25 eq_refl) as [Hok' _].
  pose proof (@mismatched_count_is_truncated Q_float8 deployment
                pangram "A" [] None (Some 0) (Some 25) three_records
                splitter_25 eq_refl) as [_ Hraise].
  destruct (Hok [[0; 0; 1]; [0; 0; 1]; [0; 0; 1]]%Q eq_refl) as [_ Hingest].
  destruct (Hok' [[0; 0; 1]; [0; 0; 1]; [0; 0; 1]]%Q eq_refl)
    as [(outs & Houts & Htexts & _) _].
  destruct Hingest as (items & rows & Hitems & Htext & _ & Htbl & Hrows).
  { repeat split; reflexivity. }
  { vm_compute. repeat constructor. }
  { repeat constructor; discriminate. }
  split; [reflexivity |].
  split; [exists outs; split; assumption |].
  split; [exists items, rows; repeat split; assumption |].
  apply (Hraise ValueError). reflexivity.
Defined.

(** C6 as stated does not hold. A request with batch size zero and chunk
    size 1000 is not rejected before the model is reached: the model is
    called on the chunks with batch size zero (and it is the model that
    raises). *)
Lemma batch_size_zero_reaches_model :
  CreateEmbeddingsBody.batch_size ingest_batch_zero = Some 0 /\
  ~ rejected_before_any_call ingest_batch_zero empty_world /\
  create_embeddings ingest_batch_zero empty_world
  = (Raise ValueError,
     {| embeddings := []; inserted := 0;
        calls := [ModelEncode ["alpha"] (Some 0)] |}) /\
  existsb is_model_call
    (calls (snd (create_embeddings ingest_batch_zero empty_world))) = true.
Proof.
  split; [reflexivity |]. split.
  - intros [e He]. vm_compute in He. discriminate He.
  - split; vm_compute; reflexivity.
Qed.

(** The configuration theorem at chunk size 20 (rejected, world kept) and
    at chunk size 1000 with batch size zero (the model is called). *)
Lemma chunk_size_checked_batch_size_not_witness :
  CreateEmbeddingsBody.chunk_size ingest_chunk_20 = Some 20 /\
  create_embeddings ingest_chunk_20 three_records
  = (Raise ValueError, three_records) /\
  CreateEmbeddingsBody.chunk_size ingest_batch_zero = Some 1000 /\
  exists sp later,
    new_text_splitter (Some 1000) 20 = Ok sp /\
    calls (snd (create_embeddings ingest_batch_zero three_records))
    = (calls three_records
       ++ ModelEncode (split_text sp "alpha") (Some 0) :: later)%list.
Proof.
  split; [reflexivity |]. split.
  - apply (proj1 (@chunk_size_checked_batch_size_not Q_float8 deployment
                    ingest_chunk_20 three_records 20 eq_refl)).
    lia.
  - split; [reflexivity |].
    apply (proj2 (@chunk_size_checked_batch_size_not Q_float8 deployment
                    ingest_batch_zero three_records 1000 eq_refl)).
    lia.
Defined.



(** The overlap theorem at chunk size 25, with a chunker that answers at
    overlap 20 only. *)
Lemma overlap_is_fixed_at_20_witness :
  20 < 25 /\
  encode_list (split_text (chunker 25 20) pangram) (Some 32) get_device
  = Ok Cases.four_vectors /\
  (exists outs,
      encode_text_corpus (EncodeBody.mk pangram (Some 32) (Some 25)) empty_world
      = (Ok outs,
         log (ModelEncode (split_text (chunker 25 20) pangram) (Some 32))
           empty_world) /\
      map EncodeOutput.text outs
      = firstn (List.length Cases.four_vectors)
          (split_text (chunker 25 20) pangram)) /\
  (exists later,
      calls (snd (create_embeddings
                    (CreateEmbeddingsBody.mk pangram "A" [] None (Some 32) (Some 25))
                    empty_world))
      = (calls empty_world
         ++ ModelEncode (split_text (chunker 25 20) pangram) (Some 32)
         :: later)%list) /\
  (exists items,
     fst (create_embeddings
            (CreateEmbeddingsBody.mk pangram "A" [] None (Some 32) (Some 25))
            empty_world)
     = Ok (CreateEmbeddingsOutput.mk items) /\
     map EmbeddingsOutputItem.text items
     = firstn (List.length Cases.four_vectors)
         (split_text (chunker 25 20) pangram)) /\
  (forall sp s, splitter_chunk_overlap sp = 20 ->
                split_at_20 sp s = split_text sp s) /\
  create_embeddings (X := with_split_text deployment split_at_20)
    (CreateEmbeddingsBody.mk pangram "A" [] None (Some 32) (Some 25)) empty_world
  = create_embeddings
      (CreateEmbeddingsBody.mk pangram "A" [] None (Some 32) (Some 25))
      empty_world /\
  encode_text_corpus (X := with_split_text deployment split_at_20)
    (EncodeBody.mk pangram (Some 32) (Some 25)) empty_world
  = encode_text_corpus (EncodeBody.mk pangram (Some 32) (Some 25)) empty_world.
Proof.
  assert (Hagree : forall sp s, splitter_chunk_overlap sp = 20 ->
                                split_at_20 sp s = split_text sp s).
  { intros sp s Hov. unfold split_at_20. rewrite Hov. reflexivity. }
  assert (Hsize : 20 < 25) by lia.
  destruct (@overlap_is_fixed_at_20 Q_float8 deployment split_at_20
              pangram "A" [] None (Some 32) 25 empty_world Cases.four_vectors
              Hsize eq_refl)
    as (Hcorpus & Hcalls & Hitems & Hsame).
  split; [exact Hsize |]. split; [reflexivity |].
  split; [exact Hcorpus |]. split; [exact Hcalls |].
  split.
  { apply Hitems.
    - repeat split; reflexivity.
    - vm_compute. repeat constructor.
    - repeat constructor; discriminate. }
  split; [exact Hagree |].
  apply Hsame. exact Hagree.
Defined.

(** The language theorem on a request with language "en" and one with
    none. *)
Lemma search_embeddings_ignores_language_witness :
  SearchEmbeddingsBody.query (search_request "alpha" (Some "en"))
  = SearchEmbeddingsBody.query (search_request "alpha" None) /\
  SearchEmbeddingsBody.cutoff (search_request "alpha" (Some "en"))
  = SearchEmbeddingsBody.cutoff (search_request "alpha" None) /\
  SearchEmbeddingsBody.top_k (search_request "alpha" (Some "en"))
  = SearchEmbeddingsBody.top_k (search_request "alpha" None) /\
  search_embeddings (search_request "alpha" (Some "en")) three_records
  = search_embeddings (search_request "alpha" None) three_records.
Proof.
  repeat (split; [reflexivity |]).
  apply (@search_embeddings_ignores_language Q_float8 deployment
           (search_request "alpha" (Some "en")) (search_request "alpha" None)
           three_records); reflexivity.
Defined.

(** The empty-chunk theorem on the empty text, whose chunk list is
    empty. *)
Lemma create_embeddings_no_chunks_witness :
  new_text_splitter (CreateEmbeddingsBody.chunk_size (ingest "A" "")) 20
  = Ok splitter_1000 /\
  split_text splitter_1000 (CreateEmbeddingsBody.text (ingest "A" "")) = [] /\
  embeddings (snd (create_embeddings (ingest "A" "") three_records))
  = embeddings three_records /\
  inserted (snd (create_embeddings (ingest "A" "") three_records))
  = inserted three_records /\
  filter is_insert (calls (snd (create_embeddings (ingest "A" "") three_records)))
  = filter is_insert (calls three_records) /\
  (forall out,
      encode_list [] (CreateEmbeddingsBody.batch_size (ingest "A" "")) get_device
      = Ok out ->
      fst (create_embeddings (ingest "A" "") three_records)
      = Ok (CreateEmbeddingsOutput.mk [])).
Proof.
  split; [reflexivity |]. split; [reflexivity |].
  apply (@create_embeddings_no_chunks Q_float8 deployment
           (ingest "A" "") three_records splitter_1000); reflexivity.
Defined.

(** On the empty text the response is the empty list. *)
Example create_embeddings_empty_text :
  fst (create_embeddings (ingest "A" "") three_records)
  = Ok (CreateEmbeddingsOutput.mk []).
Proof. vm_compute. reflexivity. Qed.

(** The query encoder on the query "alpha". *)
Example encode_query_alpha :
  encode_query (EncodeQueryBody.mk "alpha") empty_world
  = (Raise (AttributeError "batch_size"), empty_world).
Proof. reflexivity. Qed.

(** * Further properties of the handlers *)

Section MoreProperties.

Context `{X : Externals}.

(** ** The insert loop in full *)

(** Whatever the pairs, the loop only adds rows, as many as the insert
    count grows, all tagged with the request, their texts a prefix of the
    texts of the pairs. *)
Lemma create_embeddings_loop_frame
    (data : CreateEmbeddingsBody.t dict) (pairs : list (string * list float)) :
  forall (acc : list (EmbeddingsOutputItem.t float)) (w : world vector),
  exists rows,
    embeddings (snd (create_embeddings_loop data pairs acc w))
    = (embeddings w ++ rows)%list /\
    inserted (snd (create_embeddings_loop data pairs acc w))
    = (inserted w + List.length rows)%nat /\
    map row_text rows = firstn (List.length rows) (map fst pairs) /\
    Forall (fun r =>
              row_reference_id r = CreateEmbeddingsBody.reference_id data /\
              row_language r = CreateEmbeddingsBody.language data /\
              row_meta r = json_dumps (CreateEmbeddingsBody.meta data)) rows.
Proof.
  induction pairs as [| [text e] rest IH]; intros acc w.
  - exists []. simpl. rewrite app_nil_r, Nat.add_0_r. repeat split. constructor.
  - rewrite create_embeddings_loop_cons.
    destruct (has_nul text || has_nul (CreateEmbeddingsBody.reference_id data)
              || optional_has_nul (CreateEmbeddingsBody.language data)
              || has_nul (json_dumps (CreateEmbeddingsBody.meta data))).
    { exists []. simpl. rewrite app_nil_r, Nat.add_0_r.
      repeat split. constructor. }
    destruct (vector_in e) as [v |].
    + match goal with
      | |- context [create_embeddings_loop data rest ?acc' ?w1] =>
          destruct (IH acc' w1) as (rows & Htbl & Hcnt & Htext & Htag)
      end.
      eexists (_ :: rows).
      rewrite Htbl, Hcnt. cbn [embeddings inserted].
      rewrite <- app_assoc. cbn [map fst List.length app firstn row_text].
      rewrite Nat.add_succ_r, Htext.
      repeat split; try reflexivity.
      constructor; [simpl; repeat split; reflexivity | exact Htag].
    + exists []. simpl. rewrite app_nil_r, Nat.add_0_r.
      repeat split. constructor.
Qed.

(** The loop stops at the first insert that is refused, with the error
    of that insert: the pairs before it are stored, each with its commit,
    and the refused insert is the last call. *)
Lemma create_embeddings_loop_stops
    (data : CreateEmbeddingsBody.t dict)
    (text : string) (e : list float) (x : exn)
    (rest : list (string * list float)) (before : list (string * list float)) :
  request_adaptable data ->
  Forall (fun p => adaptable (fst p) /\ storable (snd p)) before ->
  (has_nul text = true /\ x = ValueError) \/
  (adaptable text /\ vector_in e = None /\ x = DatabaseError) ->
  forall (acc : list (EmbeddingsOutputItem.t float)) (w : world vector),
    create_embeddings_loop data (before ++ (text, e) :: rest) acc w
    = (Raise x,
       snd (create_embeddings_loop data (before ++ (text, e) :: rest) acc w)) /\
    exists rows,
      embeddings (snd (create_embeddings_loop data
                         (before ++ (text, e) :: rest) acc w))
      = (embeddings w ++ rows)%list /\
      map row_text rows = map fst before /\
      calls (snd (create_embeddings_loop data
                    (before ++ (text, e) :: rest) acc w))
      = (calls w ++ flat_map (chunk_statements data) (map fst before)
         ++ [SqlInsert text (CreateEmbeddingsBody.reference_id data)])%list.
Proof.
  intros Hreq Hbefore Hrefused.
  induction Hbefore as [| [t g] before [Ht Hg] Hrest IH]; intros acc w.
  - simpl app. rewrite create_embeddings_loop_cons.
    destruct Hrefused as [[Hnul ->] | (Htext & Hv & ->)].
    + rewrite Hnul. simpl.
      split; [reflexivity |]. exists []. rewrite app_nil_r.
      repeat split; reflexivity.
    + rewrite (insert_adapted Hreq Htext), Hv. simpl.
      split; [reflexivity |]. exists []. rewrite app_nil_r.
      repeat split; reflexivity.
  - simpl in Ht, Hg. unfold storable in Hg.
    simpl app. rewrite create_embeddings_loop_cons, (insert_adapted Hreq Ht).
    destruct (vector_in g) as [v |]; [| congruence].
    match goal with
    | |- context [create_embeddings_loop data _ ?acc' ?w1] =>
        destruct (IH acc' w1) as (Hraise & rows & Htbl & Htext & Hcalls)
    end.
    split; [exact Hraise |].
    eexists (_ :: rows). rewrite Htbl, Hcalls. cbn [embeddings calls].
    rewrite <- !app_assoc. simpl. rewrite Htext.
    repeat split; reflexivity.
Qed.

Lemma combine_app_same_length {A B} (l1 l2 : list A) (m1 m2 : list B) :
  List.length l1 = List.length m1 ->
  combine (l1 ++ l2) (m1 ++ m2) = (combine l1 m1 ++ combine l2 m2)%list.
Proof.
  revert m1. induction l1 as [| a l1 IH]; intros [| b m1] Hlen;
    simpl in *; try discriminate; [reflexivity |].
  rewrite IH by lia. reflexivity.
Qed.

Lemma Forall2_In_left {A B} (R : A -> B -> Prop) (l : list A) (l' : list B) (a : A) :
  Forall2 R l l' -> In a l -> exists b, In b l' /\ R a b.
Proof.
  induction 1 as [| x y l l' Hxy Hrest IH]; intros Hin.
  - destruct Hin.
  - destruct Hin as [<- | Hin].
    + exists y. split; [left; reflexivity | exact Hxy].
    + destruct (IH Hin) as (b & Hb & HR).
      exists b. split; [right; exact Hb | exact HR].
Qed.

(** ** Ingestion *)

(** X1. A successful ingestion stores one row per item of its response,
    after the rows already in the table: the row has the item's uuid and
    text, the embedding the engine reads from the item's embedding, and
    the reference id, language and serialized meta of the request.  The
    ingestion succeeds when the model returns and the store accepts
    every insert: strings the driver adapts (no NUL character) and
    vectors the engine reads. *)
Theorem create_embeddings_stores_items
    (data : CreateEmbeddingsBody.t dict) (w : world vector)
    (sp : text_splitter) (out : list (list float)) :
  new_text_splitter (CreateEmbeddingsBody.chunk_size data) 20 = Ok sp ->
  encode_list (split_text sp (CreateEmbeddingsBody.text data))
    (CreateEmbeddingsBody.batch_size data) get_device = Ok out ->
  request_adaptable data ->
  Forall adaptable (split_text sp (CreateEmbeddingsBody.text data)) ->
  Forall storable out ->
  exists items rows,
    fst (create_embeddings data w) = Ok (CreateEmbeddingsOutput.mk items) /\
    embeddings (snd (create_embeddings data w)) = (embeddings w ++ rows)%list /\
    Forall2 (stored_as data) items rows.
Proof.
  intros Hsp Henc Hreq Hdocs Hstore.
  rewrite (create_embeddings_run data w Hsp Henc).
  destruct (create_embeddings_loop_detail Hreq (accepted_combine Hdocs Hstore)
              [] (log (ModelEncode (split_text sp (CreateEmbeddingsBody.text data))
                         (CreateEmbeddingsBody.batch_size data)) w))
    as (items & rows & Hrun & _ & Hrows).
  rewrite Hrun. exists items, rows.
  split; [reflexivity |]. split; [reflexivity | exact Hrows].
Qed.

(** X2. Whatever the request and whatever the outcome, ingestion leaves
    the rows already in the table where they were: the table afterwards
    is the old table followed by new rows, and every new row carries the
    reference id, language and serialized meta of the request. *)
Theorem create_embeddings_only_appends
    (data : CreateEmbeddingsBody.t dict) (w : world vector) :
  exists rows,
    embeddings (snd (create_embeddings data w)) = (embeddings w ++ rows)%list /\
    Forall (fun r =>
              row_reference_id r = CreateEmbeddingsBody.reference_id data /\
              row_language r = CreateEmbeddingsBody.language data /\
              row_meta r = json_dumps (CreateEmbeddingsBody.meta data)) rows.
Proof.
  unfold create_embeddings, bind at 1, lift.
  destruct (new_text_splitter (CreateEmbeddingsBody.chunk_size data) 20)
    as [sp | e].
  - unfold bind at 1, model_encode.
    destruct (encode_list (split_text sp (CreateEmbeddingsBody.text data))
                (CreateEmbeddingsBody.batch_size data) get_device)
      as [out | e].
    + unfold bind, ret.
      match goal with
      | |- context [create_embeddings_loop data ?ps ?acc ?w1] =>
          destruct (create_embeddings_loop_frame data ps acc w1)
            as (rows & Htbl & _ & _ & Htag);
          destruct (create_embeddings_loop data ps acc w1) as [[res | e] w']
      end; simpl in *; exists rows; split; assumption.
    + exists []. simpl. rewrite app_nil_r. split; [reflexivity | constructor].
  - exists []. simpl. rewrite app_nil_r. split; [reflexivity | constructor].
Qed.


(** X4. A successful ingestion calls the model once, on all the chunks,
    with the batch size of the request, and then issues for each stored
    chunk, in order, one insert followed by one commit; nothing else
    leaves the process. *)
Theorem create_embeddings_call_sequence
    (data : CreateEmbeddingsBody.t dict) (w : world vector)
    (sp : text_splitter) (out : list (list float)) :
  new_text_splitter (CreateEmbeddingsBody.chunk_size data) 20 = Ok sp ->
  encode_list (split_text sp (CreateEmbeddingsBody.text data))
    (CreateEmbeddingsBody.batch_size data) get_device = Ok out ->
  request_adaptable data ->
  Forall adaptable (split_text sp (CreateEmbeddingsBody.text data)) ->
  Forall storable out ->
  calls (snd (create_embeddings data w))
  = (calls w
     ++ ModelEncode (split_text sp (CreateEmbeddingsBody.text data))
          (CreateEmbeddingsBody.batch_size data)
     :: flat_map (fun text =>
                    [SqlInsert text (CreateEmbeddingsBody.reference_id data);
                     ConnCommit])
          (firstn (List.length out)
             (split_text sp (CreateEmbeddingsBody.text data))))%list.
Proof.
  intros Hsp Henc Hreq Hdocs Hstore.
  rewrite (create_embeddings_run data w Hsp Henc).
  destruct (create_embeddings_loop_detail Hreq (accepted_combine Hdocs Hstore)
              [] (log (ModelEncode (split_text sp (CreateEmbeddingsBody.text data))
                         (CreateEmbeddingsBody.batch_size data)) w))
    as (items & rows & Hrun & _ & _).
  rewrite Hrun. cbn [snd calls log].
  rewrite map_fst_combine_firstn, <- app_assoc. reflexivity.
Qed.

(** X18. A chunk with a NUL character stops the ingestion at that chunk:
    when the store accepts the inserts of the chunks before position [k]
    and the chunk at position [k] has a NUL character (and the model
    returned a vector for it), the call raises [ValueError], the rows of
    the first [k] chunks stay stored, and the refused insert is the last
    call: no commit follows it. *)
Theorem create_embeddings_stops_at_nul_chunk
    (data : CreateEmbeddingsBody.t dict) (w : world vector) (sp : text_splitter)
    (before : list string) (text : string) (after : list string)
    (good : list (list float)) (e : list float) (rest : list (list float)) :
  new_text_splitter (CreateEmbeddingsBody.chunk_size data) 20 = Ok sp ->
  split_text sp (CreateEmbeddingsBody.text data)
  = (before ++ text :: after)%list ->
  encode_list (split_text sp (CreateEmbeddingsBody.text data))
    (CreateEmbeddingsBody.batch_size data) get_device
  = Ok (good ++ e :: rest)%list ->
  List.length before = List.length good ->
  request_adaptable data ->
  Forall adaptable before ->
  Forall storable good ->
  has_nul text = true ->
  fst (create_embeddings data w) = Raise ValueError /\
  (exists rows,
      embeddings (snd (create_embeddings data w)) = (embeddings w ++ rows)%list /\
      map row_text rows = before) /\
  calls (snd (create_embeddings data w))
  = (calls w
     ++ ModelEncode (before ++ text :: after)
          (CreateEmbeddingsBody.batch_size data)
     :: flat_map (fun t =>
                    [SqlInsert t (CreateEmbeddingsBody.reference_id data);
                     ConnCommit])
          before
     ++ [SqlInsert text (CreateEmbeddingsBody.reference_id data)])%list.
Proof.
  intros Hsp Hdocs Henc Hlen Hreq Hbefore Hgood Hnul.
  rewrite (create_embeddings_run data w Hsp Henc), Hdocs.
  rewrite (combine_app_same_length before (text :: after) good (e :: rest) Hlen).
  cbn [combine].
  destruct (@create_embeddings_loop_stops data text e ValueError
              (combine after rest) (combine before good)
              Hreq (accepted_combine Hbefore Hgood)
              (or_introl (conj Hnul eq_refl))
              [] (log (ModelEncode (before ++ text :: after)%list
                         (CreateEmbeddingsBody.batch_size data)) w))
    as (Hraise & rows & Htbl & Hrows & Hcalls).
  assert (Hfst : map fst (combine before good) = before).
  { rewrite map_fst_combine_firstn, <- Hlen. apply firstn_all. }
  rewrite Hraise. cbn [fst snd].
  split; [reflexivity |].
  split.
  - exists rows. split; [exact Htbl |]. rewrite Hrows. exact Hfst.
  - rewrite Hcalls, Hfst. cbn [calls log]. rewrite <- app_assoc. reflexivity.
Qed.

(** ** Direct encode and bulk encode *)

(** Past the end of the vectors the loop raises. *)
Lemma bulk_encode_loop_short
    (embeddings_list : list (list float)) (input_data : list (string * string)) :
  forall (i : nat) (output : list (BulkEncodeOutput.t float)),
    (i <= List.length embeddings_list)%nat ->
    (List.length embeddings_list < i + List.length input_data)%nat ->
    bulk_encode_loop embeddings_list i input_data output = Raise IndexError.
Proof.
  induction input_data as [| [id text] more IH]; intros i output Hi Hlen.
  - simpl in Hlen. lia.
  - simpl in Hlen. simpl.
    destruct (nth_error embeddings_list i) as [e |] eqn:Hnth; [| reflexivity].
    apply IH.
    + assert (i < List.length embeddings_list)%nat
        by (apply nth_error_Some; congruence).
      lia.
    + lia.
Qed.

(** X5. Ingestion and direct encode of the same text with the same batch
    and chunk sizes answer with the same texts and embeddings, pair by
    pair (ingestion adds the uuids and the rows), when the store accepts
    every insert of the ingestion. *)
Theorem create_embeddings_agrees_with_encode_text_corpus
    (text reference_id : string) (meta : dict) (language : option string)
    (batch_size chunk_size : option Z) (w w' : world vector)
    (sp : text_splitter) (out : list (list float)) :
  new_text_splitter chunk_size 20 = Ok sp ->
  encode_list (split_text sp text) batch_size get_device = Ok out ->
  request_adaptable
    (CreateEmbeddingsBody.mk text reference_id meta language batch_size chunk_size) ->
  Forall adaptable (split_text sp text) ->
  Forall storable out ->
  exists items outs,
    fst (create_embeddings
           (CreateEmbeddingsBody.mk text reference_id meta language
              batch_size chunk_size) w)
    = Ok (CreateEmbeddingsOutput.mk items) /\
    fst (encode_text_corpus (EncodeBody.mk text batch_size chunk_size) w')
    = Ok outs /\
    map (fun i => (EmbeddingsOutputItem.text i, EmbeddingsOutputItem.embedding i))
        items
    = map (fun o => (EncodeOutput.text o, EncodeOutput.embedding o)) outs.
Proof.
  intros Hsp Henc Hreq Hdocs Hstore.
  set (data := CreateEmbeddingsBody.mk text reference_id meta language
                 batch_size chunk_size) in *.
  rewrite (create_embeddings_run data w Hsp Henc).
  rewrite (encode_text_corpus_run (EncodeBody.mk text batch_size chunk_size)
             w' Hsp Henc).
  destruct (create_embeddings_loop_detail Hreq (accepted_combine Hdocs Hstore)
              [] (log (ModelEncode (split_text sp text) batch_size) w))
    as (items & rows & Hrun & Hpairs & _).
  simpl in *. rewrite Hrun. simpl.
  eexists items, _. split; [reflexivity |]. split; [reflexivity |].
  rewrite Hpairs, map_map. simpl.
  rewrite <- (map_id (combine (split_text sp text) out)) at 1.
  apply map_ext. intros [t e]. reflexivity.
Qed.

(** X6. Direct encode and bulk encode never touch the store: the table is
    the one before the call, and the only call that leaves the process is
    at most one call of the model. *)
Theorem encode_handlers_leave_store
    (body : EncodeBody.t) (bulk : BulkEncodeBody.t) (w : world vector) :
  (embeddings (snd (encode_text_corpus body w)) = embeddings w /\
   (calls (snd (encode_text_corpus body w)) = calls w \/
    exists documents,
      calls (snd (encode_text_corpus body w))
      = (calls w ++ [ModelEncode documents (EncodeBody.batch_size body)])%list)) /\
  (embeddings (snd (bulk_encode bulk w)) = embeddings w /\
   (calls (snd (bulk_encode bulk w)) = calls w \/
    exists documents,
      calls (snd (bulk_encode bulk w))
      = (calls w ++ [ModelEncode documents (BulkEncodeBody.batch_size bulk)])%list)).
Proof.
  split.
  - unfold encode_text_corpus, bind, lift, model_encode, ret.
    destruct (new_text_splitter (EncodeBody.chunk_size body) 20) as [sp | e];
      [| split; [reflexivity | left; reflexivity]].
    destruct (encode_list (split_text sp (EncodeBody.text body))
                (EncodeBody.batch_size body) get_device) as [out | e];
      (split; [reflexivity | right; eexists; reflexivity]).
  - unfold bulk_encode, bind, lift, model_encode.
    destruct (new_text_splitter (BulkEncodeBody.chunk_size bulk) 20) as [sp | e];
      [| split; [reflexivity | left; reflexivity]].
    destruct (encode_list
                (map snd (bulk_input_data sp (BulkEncodeBody.texts bulk)))
                (BulkEncodeBody.batch_size bulk) get_device) as [emb | e];
      (split; [reflexivity | right; eexists; reflexivity]).
Qed.

(** X7. Bulk encode calls the model once, on the chunks of all the items
    in request order.  When the model returns at least one vector per
    chunk, the response has one entry per chunk in that order: entry [i]
    has the id of the item the chunk comes from, the chunk as text and
    the [i]-th vector; vectors beyond the chunks are ignored. *)
Theorem bulk_encode_aligned
    (data : BulkEncodeBody.t) (w : world vector)
    (sp : text_splitter) (emb : list (list float)) :
  new_text_splitter (BulkEncodeBody.chunk_size data) 20 = Ok sp ->
  encode_list (bulk_chunks sp (BulkEncodeBody.texts data))
    (BulkEncodeBody.batch_size data) get_device = Ok emb ->
  (List.length (bulk_chunks sp (BulkEncodeBody.texts data)) <= List.length emb)%nat ->
  exists output,
    fst (bulk_encode data w) = Ok output /\
    map (fun o => (BulkEncodeOutput.id o, BulkEncodeOutput.text o)) output
    = bulk_input_data sp (BulkEncodeBody.texts data) /\
    map BulkEncodeOutput.text output = bulk_chunks sp (BulkEncodeBody.texts data) /\
    map BulkEncodeOutput.embedding output
    = firstn (List.length (bulk_chunks sp (BulkEncodeBody.texts data))) emb /\
    calls (snd (bulk_encode data w))
    = (calls w ++ [ModelEncode (bulk_chunks sp (BulkEncodeBody.texts data))
                     (BulkEncodeBody.batch_size data)])%list.
Proof.
  intros Hsp Henc Hlen.
  rewrite (bulk_encode_run data w Hsp Henc).
  destruct (bulk_encode_loop_aligned emb
              (bulk_input_data sp (BulkEncodeBody.texts data)) 0 [])
    as (output & Hrun & Hid & Hemb).
  { rewrite bulk_input_data_length. simpl. exact Hlen. }
  exists output. simpl in Hrun. rewrite Hrun. simpl.
  split; [reflexivity |]. split; [exact Hid |].
  split.
  { rewrite <- bulk_raw_input, <- Hid, map_map. reflexivity. }
  split; [| reflexivity].
  rewrite Hemb, bulk_input_data_length. reflexivity.
Qed.

(** X8. When the model returns fewer vectors than there are chunks, bulk
    encode raises [IndexError] (where ingestion and direct encode would
    answer with the shorter list). *)
Theorem bulk_encode_too_few_vectors
    (data : BulkEncodeBody.t) (w : world vector)
    (sp : text_splitter) (emb : list (list float)) :
  new_text_splitter (BulkEncodeBody.chunk_size data) 20 = Ok sp ->
  encode_list (bulk_chunks sp (BulkEncodeBody.texts data))
    (BulkEncodeBody.batch_size data) get_device = Ok emb ->
  (List.length emb < List.length (bulk_chunks sp (BulkEncodeBody.texts data)))%nat ->
  fst (bulk_encode data w) = Raise IndexError.
Proof.
  intros Hsp Henc Hlen.
  rewrite (bulk_encode_run data w Hsp Henc). simpl.
  apply bulk_encode_loop_short; [lia |].
  rewrite bulk_input_data_length. simpl. exact Hlen.
Qed.

Lemma bulk_input_data_In
    (sp : text_splitter) (texts : list BulkEncodeItem.t) (id text : string) :
  In (id, text) (bulk_input_data sp texts) <->
  exists item,
    In item texts /\ BulkEncodeItem.id item = id /\
    In text (split_text sp (BulkEncodeItem.text item)).
Proof.
  unfold bulk_input_data. rewrite in_flat_map. split.
  - intros (item & Hitem & Hin). apply in_map_iff in Hin.
    destruct Hin as (t & Heq & Ht). injection Heq as <- <-.
    exists item. repeat split; assumption.
  - intros (item & Hitem & <- & Ht).
    exists item. split; [exact Hitem |].
    apply in_map_iff. exists text. split; [reflexivity | exact Ht].
Qed.

(** X9. In a successful bulk encode every entry carries the id of the
    request item its text is a chunk of, and every chunk of every item
    has its entry: a pair (id, text) is in the response exactly when some
    item of the request has that id and that text among its chunks. *)
Theorem bulk_encode_entries_inherit_ids
    (data : BulkEncodeBody.t) (w : world vector)
    (sp : text_splitter) (emb : list (list float)) :
  new_text_splitter (BulkEncodeBody.chunk_size data) 20 = Ok sp ->
  encode_list (bulk_chunks sp (BulkEncodeBody.texts data))
    (BulkEncodeBody.batch_size data) get_device = Ok emb ->
  (List.length (bulk_chunks sp (BulkEncodeBody.texts data)) <= List.length emb)%nat ->
  exists output,
    fst (bulk_encode data w) = Ok output /\
    forall id text,
      (exists o, In o output /\
                 BulkEncodeOutput.id o = id /\ BulkEncodeOutput.text o = text) <->
      (exists item,
          In item (BulkEncodeBody.texts data) /\
          BulkEncodeItem.id item = id /\
          In text (split_text sp (BulkEncodeItem.text item))).
Proof.
  intros Hsp Henc Hlen.
  rewrite (bulk_encode_run data w Hsp Henc).
  destruct (bulk_encode_loop_aligned emb
              (bulk_input_data sp (BulkEncodeBody.texts data)) 0 [])
    as (output & Hrun & Hid & _).
  { rewrite bulk_input_data_length. simpl. exact Hlen. }
  exists output. simpl in Hrun. rewrite Hrun. simpl.
  split; [reflexivity |].
  intros id text. rewrite <- bulk_input_data_In, <- Hid, in_map_iff.
  split.
  - intros (o & Ho & <- & <-). exists o. split; [reflexivity | exact Ho].
  - intros (o & Heq & Ho). injection Heq as <- <-.
    exists o. repeat split. exact Ho.
Qed.

(** X10. Bulk encode of a single item answers like direct encode of its
    text, provided the model returns at least one vector per chunk: the
    same texts with the same embeddings, each entry under the item's
    id. *)
Theorem bulk_encode_single_item
    (id text : string) (batch_size chunk_size : option Z) (w w' : world vector)
    (sp : text_splitter) (out : list (list float)) :
  new_text_splitter chunk_size 20 = Ok sp ->
  encode_list (split_text sp text) batch_size get_device = Ok out ->
  (List.length (split_text sp text) <= List.length out)%nat ->
  exists outs bulk,
    fst (encode_text_corpus (EncodeBody.mk text batch_size chunk_size) w) = Ok outs /\
    fst (bulk_encode
           (BulkEncodeBody.mk [BulkEncodeItem.mk id text] batch_size chunk_size) w')
    = Ok bulk /\
    map BulkEncodeOutput.text bulk = map EncodeOutput.text outs /\
    map BulkEncodeOutput.embedding bulk = map EncodeOutput.embedding outs /\
    Forall (fun o => BulkEncodeOutput.id o = id) bulk.
Proof.
  intros Hsp Henc Hlen.
  set (data := BulkEncodeBody.mk [BulkEncodeItem.mk id text] batch_size chunk_size).
  assert (Hchunks : bulk_chunks sp (BulkEncodeBody.texts data) = split_text sp text).
  { unfold bulk_chunks. simpl. apply app_nil_r. }
  assert (Henc' : encode_list (bulk_chunks sp (BulkEncodeBody.texts data))
                    (BulkEncodeBody.batch_size data) get_device = Ok out).
  { rewrite Hchunks. exact Henc. }
  rewrite (encode_text_corpus_run (EncodeBody.mk text batch_size chunk_size)
             w Hsp Henc).
  rewrite (bulk_encode_run data w' Hsp Henc').
  destruct (bulk_encode_loop_aligned out
              (bulk_input_data sp (BulkEncodeBody.texts data)) 0 [])
    as (bulk & Hrun & Hid & Hemb).
  { rewrite bulk_input_data_length, Hchunks. simpl. exact Hlen. }
  cbn [app] in Hrun. cbn [fst]. rewrite Hrun.
  eexists _, bulk. split; [reflexivity |]. split; [reflexivity |].
  rewrite !map_map. cbn [EncodeOutput.text EncodeOutput.embedding EncodeBody.text].
  change (map (fun x : string * list float => fst x))
    with (@map (string * list float) string fst).
  change (map (fun x : string * list float => snd x))
    with (@map (string * list float) (list float) snd).
  rewrite map_fst_combine_firstn, map_snd_combine_firstn.
  rewrite (firstn_all2 (split_text sp text)) by exact Hlen.
  split.
  { rewrite <- Hchunks, <- bulk_raw_input, <- Hid, map_map. reflexivity. }
  split.
  { rewrite Hemb, bulk_input_data_length, Hchunks. reflexivity. }
  apply Forall_forall. intros o Ho.
  assert (Hin : In (BulkEncodeOutput.id o, BulkEncodeOutput.text o)
                   (bulk_input_data sp (BulkEncodeBody.texts data))).
  { rewrite <- Hid. apply in_map_iff. exists o. split; [reflexivity | exact Ho]. }
  apply bulk_input_data_In in Hin.
  destruct Hin as (item & [<- | []] & Hitem & _). exact (eq_sym Hitem).
Qed.

(** X11. A chunk size the splitter's constructor rejects stops each of
    the three chunking handlers with the constructor's error before
    anything else happens: the world, log of calls included, is the one
    before the call. *)
Theorem splitter_rejection_stops_handlers
    (text reference_id : string) (meta : dict) (language : option string)
    (texts : list BulkEncodeItem.t)
    (batch_size chunk_size : option Z) (w : world vector) (e : exn) :
  new_text_splitter chunk_size 20 = Raise e ->
  create_embeddings
    (CreateEmbeddingsBody.mk text reference_id meta language batch_size chunk_size) w
  = (Raise e, w) /\
  encode_text_corpus (EncodeBody.mk text batch_size chunk_size) w = (Raise e, w) /\
  bulk_encode (BulkEncodeBody.mk texts batch_size chunk_size) w = (Raise e, w).
Proof.
  intros Hsp.
  unfold create_embeddings, encode_text_corpus, bulk_encode, bind, lift.
  simpl. rewrite Hsp. repeat split.
Qed.

(** ** Search *)

Lemma search_embeddings_run
    (data : SearchEmbeddingsBody.t float) (w : world vector)
    (e : list float) (q : vector) :
  encode_str (SearchEmbeddingsBody.query data) (Some 32) get_device = Ok e ->
  vector_in e = Some q ->
  search_embeddings data w
  = (match limit (SearchEmbeddingsBody.top_k data)
             (order_by_score_desc
                (filter (where_score_gt (SearchEmbeddingsBody.cutoff data))
                        (matches q (embeddings w)))) with
     | Ok rows => Ok (map SearchResult_of_row rows)
     | Raise x => Raise x
     end,
     log SqlSelect
       (log (ModelEncode [SearchEmbeddingsBody.query data] (Some 32)) w)).
Proof.
  intros Henc Hvec.
  unfold search_embeddings, bind, model_encode_str, cursor_execute_search,
    search_statement, ret.
  rewrite Henc. cbn [embeddings log]. rewrite Hvec.
  destruct (limit (SearchEmbeddingsBody.top_k data) _); reflexivity.
Qed.

Lemma StronglySorted_app_cross {A} (R : A -> A -> Prop) (l1 l2 : list A) :
  StronglySorted R (l1 ++ l2) ->
  forall x y, In x l1 -> In y l2 -> R x y.
Proof.
  induction l1 as [| a l1 IH]; simpl; intros Hs x y Hx Hy; [destruct Hx |].
  inversion Hs as [| ? ? Hrest Hall]; subst.
  destruct Hx as [<- | Hx].
  - rewrite Forall_forall in Hall. apply Hall, in_or_app. right. exact Hy.
  - apply (IH Hrest x y Hx Hy).
Qed.

Lemma qualifying_row_is_ranked
    (q : vector) (c : float) (table : list (embeddings_row vector))
    (r : embeddings_row vector) :
  In r table ->
  float_gtb (score_of q r) c = true ->
  In (match_of q r)
     (order_by_score_desc (filter (where_score_gt (Some c)) (matches q table))).
Proof.
  intros Hin Hgt.
  eapply Permutation_in;
    [apply Permutation_sym, order_by_score_desc_perm |].
  apply filter_In. split; [| exact Hgt].
  rewrite matches_map. apply in_map. exact Hin.
Qed.

(** X12. Search never writes: whatever the request and the outcome, the
    table is the one before the call.  It calls the model once, on the
    query alone and with batch size 32, and issues at most one select
    after it. *)
Theorem search_embeddings_reads_only
    (data : SearchEmbeddingsBody.t float) (w : world vector) :
  embeddings (snd (search_embeddings data w)) = embeddings w /\
  (calls (snd (search_embeddings data w))
   = (calls w ++ [ModelEncode [SearchEmbeddingsBody.query data] (Some 32)])%list \/
   calls (snd (search_embeddings data w))
   = (calls w ++ [ModelEncode [SearchEmbeddingsBody.query data] (Some 32);
                  SqlSelect])%list).
Proof.
  unfold search_embeddings, bind, model_encode_str, cursor_execute_search, ret.
  destruct (encode_str (SearchEmbeddingsBody.query data) (Some 32) get_device)
    as [e | x].
  - cbn [embeddings log].
    destruct (search_statement e (SearchEmbeddingsBody.cutoff data)
                (SearchEmbeddingsBody.top_k data) (embeddings w));
      (split; [reflexivity |]; right; simpl; rewrite <- app_assoc; reflexivity).
  - split; [reflexivity | left; reflexivity].
Qed.

(** X13. A search whose cutoff is null finds nothing: the response is the
    empty list, whatever the store holds. *)
Theorem search_embeddings_null_cutoff
    (data : SearchEmbeddingsBody.t float) (w : world vector)
    (e : list float) (q : vector) :
  SearchEmbeddingsBody.cutoff data = None ->
  (SearchEmbeddingsBody.top_k data = None \/
   exists k, SearchEmbeddingsBody.top_k data = Some k /\ 0 <= k <= bigint_max) ->
  encode_str (SearchEmbeddingsBody.query data) (Some 32) get_device = Ok e ->
  vector_in e = Some q ->
  fst (search_embeddings data w) = Ok [].
Proof.
  intros Hc Hk Henc Hvec.
  rewrite (search_embeddings_run data w Henc Hvec), Hc. cbn [fst].
  assert (Hnone : filter (where_score_gt None) (matches q (embeddings w)) = []).
  { induction (matches q (embeddings w)) as [| m l IH]; simpl; [reflexivity |].
    exact IH. }
  rewrite Hnone. simpl order_by_score_desc.
  destruct Hk as [-> | (k & -> & Hrange)].
  - reflexivity.
  - rewrite limit_in_range by exact Hrange. rewrite firstn_nil. reflexivity.
Qed.

(** X14. When the limit does not bite (it is null, or at least the number
    of records above the cutoff), the response holds exactly the records
    whose score is above the cutoff, each once, as hits. *)
Theorem search_embeddings_exact_without_limit
    (data : SearchEmbeddingsBody.t float) (w : world vector)
    (c : float) (e : list float) (q : vector) :
  SearchEmbeddingsBody.cutoff data = Some c ->
  (SearchEmbeddingsBody.top_k data = None \/
   exists k,
     SearchEmbeddingsBody.top_k data = Some k /\
     Z.of_nat (List.length
                 (filter (fun r => float_gtb (score_of q r) c) (embeddings w)))
     <= k <= bigint_max) ->
  encode_str (SearchEmbeddingsBody.query data) (Some 32) get_device = Ok e ->
  vector_in e = Some q ->
  exists response,
    fst (search_embeddings data w) = Ok response /\
    Permutation response
      (map (hit q) (filter (fun r => float_gtb (score_of q r) c) (embeddings w))).
Proof.
  intros Hc Hk Henc Hvec.
  rewrite (search_embeddings_run data w Henc Hvec), Hc. cbn [fst].
  set (kept := filter (fun r => float_gtb (score_of q r) c) (embeddings w)) in *.
  assert (Hfilter :
            filter (where_score_gt (Some c)) (matches q (embeddings w))
            = map (match_of q) kept).
  { rewrite matches_map, filter_map_commute. reflexivity. }
  rewrite Hfilter.
  assert (Hperm :
            Permutation
              (map SearchResult_of_row (order_by_score_desc (map (match_of q) kept)))
              (map (hit q) kept)).
  { replace (map (hit q) kept)
      with (map SearchResult_of_row (map (match_of q) kept))
      by (rewrite map_map; reflexivity).
    apply Permutation_map, order_by_score_desc_perm. }
  destruct Hk as [-> | (k & -> & Hrange)].
  - eexists. split; [reflexivity | exact Hperm].
  - rewrite limit_in_range by lia.
    rewrite firstn_all2.
    + eexists. split; [reflexivity | exact Hperm].
    + rewrite (Permutation_length (order_by_score_desc_perm _)), length_map. lia.
Qed.

(** X15. A limit the statement does not accept, negative or beyond the
    largest bigint, makes the search raise [DatabaseError], whatever the
    store holds. *)
Theorem search_embeddings_bad_limit
    (data : SearchEmbeddingsBody.t float) (w : world vector)
    (e : list float) (k : Z) :
  encode_str (SearchEmbeddingsBody.query data) (Some 32) get_device = Ok e ->
  SearchEmbeddingsBody.top_k data = Some k ->
  k < 0 \/ bigint_max < k ->
  fst (search_embeddings data w) = Raise DatabaseError.
Proof.
  intros Henc Hk Hbad.
  unfold search_embeddings, bind, model_encode_str, cursor_execute_search,
    search_statement, ret.
  rewrite Henc. cbn [embeddings log]. rewrite Hk.
  destruct (vector_in e) as [q |]; [| reflexivity].
  unfold limit.
  destruct ((k <? 0) || (bigint_max <? k)) eqn:Hcond; [reflexivity |].
  apply orb_false_elim in Hcond. destruct Hcond as [H0 H1].
  apply Z.ltb_ge in H0. apply Z.ltb_ge in H1. lia.
Qed.

(** X16. The limit keeps the best: a stored record whose score is above
    the cutoff is either in the response, or the response is full
    ([top_k] entries) and every entry scores at least as much as that
    record. *)
Theorem search_embeddings_keeps_the_best
    (data : SearchEmbeddingsBody.t float) (w : world vector)
    (c : float) (k : Z) (e : list float) (q : vector)
    (r : embeddings_row vector) :
  SearchEmbeddingsBody.cutoff data = Some c ->
  SearchEmbeddingsBody.top_k data = Some k ->
  0 <= k <= bigint_max ->
  encode_str (SearchEmbeddingsBody.query data) (Some 32) get_device = Ok e ->
  vector_in e = Some q ->
  In r (embeddings w) ->
  float_gtb (score_of q r) c = true ->
  exists response,
    fst (search_embeddings data w) = Ok response /\
    (In (hit q r) response \/
     (List.length response = Z.to_nat k /\
      Forall (fun h => float_leb (score_of q r) (SearchResult.score h) = true)
             response)).
Proof.
  intros Hc Hk Hrange Henc Hvec Hin Hgt.
  rewrite (search_embeddings_run data w Henc Hvec), Hc, Hk. cbn [fst].
  rewrite limit_in_range by exact Hrange.
  set (ranked := order_by_score_desc
                   (filter (where_score_gt (Some c)) (matches q (embeddings w)))).
  eexists. split; [reflexivity |].
  pose proof (qualifying_row_is_ranked q c (embeddings w) r Hin Hgt) as Hranked.
  fold ranked in Hranked.
  rewrite <- (firstn_skipn (Z.to_nat k) ranked) in Hranked.
  apply in_app_or in Hranked. destruct Hranked as [Hfirst | Hlast].
  - left. change (hit q r) with (SearchResult_of_row (match_of q r)).
    apply in_map. exact Hfirst.
  - right. split.
    + rewrite length_map. apply firstn_length_le.
      destruct (Nat.le_gt_cases (Z.to_nat k) (List.length ranked)) as [Hle | Hlt];
        [exact Hle |].
      rewrite skipn_all2 in Hlast by lia. destruct Hlast.
    + apply Forall_forall. intros h Hh. apply in_map_iff in Hh.
      destruct Hh as (m & <- & Hm).
      pose proof (order_by_score_desc_sorted
                    (filter (where_score_gt (Some c)) (matches q (embeddings w))))
        as Hsorted.
      fold ranked in Hsorted.
      rewrite <- (firstn_skipn (Z.to_nat k) ranked) in Hsorted.
      apply (StronglySorted_app_cross _ _ Hsorted m (match_of q r) Hm Hlast).
Qed.

(** X17. What ingestion stores, search finds. After an ingestion whose
    inserts the store accepts, a search without limit returns, for every item of the
    ingestion response whose embedding (as the engine reads it) scores
    above the cutoff against the query, the hit with the item's uuid and
    text, the reference id of the ingestion request and that score; and
    every record that was in the store before and scores above the cutoff
    is still returned. *)
Theorem ingested_chunks_are_found
    (data : CreateEmbeddingsBody.t dict) (d : SearchEmbeddingsBody.t float)
    (w : world vector) (sp : text_splitter) (out : list (list float))
    (c : float) (e : list float) (q : vector) :
  new_text_splitter (CreateEmbeddingsBody.chunk_size data) 20 = Ok sp ->
  encode_list (split_text sp (CreateEmbeddingsBody.text data))
    (CreateEmbeddingsBody.batch_size data) get_device = Ok out ->
  request_adaptable data ->
  Forall adaptable (split_text sp (CreateEmbeddingsBody.text data)) ->
  Forall storable out ->
  SearchEmbeddingsBody.cutoff d = Some c ->
  SearchEmbeddingsBody.top_k d = None ->
  encode_str (SearchEmbeddingsBody.query d) (Some 32) get_device = Ok e ->
  vector_in e = Some q ->
  exists items response,
    fst (create_embeddings data w) = Ok (CreateEmbeddingsOutput.mk items) /\
    fst (search_embeddings d (snd (create_embeddings data w))) = Ok response /\
    (forall item v,
        In item items ->
        vector_in (EmbeddingsOutputItem.embedding item) = Some v ->
        float_gtb (float_sub float_one (cosine_distance v q)) c = true ->
        In (SearchResult.mk (EmbeddingsOutputItem.uuid item)
              (EmbeddingsOutputItem.text item)
              (CreateEmbeddingsBody.reference_id data)
              (float_sub float_one (cosine_distance v q)))
           response) /\
    (forall r,
        In r (embeddings w) ->
        float_gtb (score_of q r) c = true ->
        In (hit q r) response).
Proof.
  intros Hsp Henc Hreq Hdocs Hstore Hc Hk Hq Hvec.
  rewrite (create_embeddings_run data w Hsp Henc).
  destruct (create_embeddings_loop_detail Hreq (accepted_combine Hdocs Hstore)
              [] (log (ModelEncode (split_text sp (CreateEmbeddingsBody.text data))
                         (CreateEmbeddingsBody.batch_size data)) w))
    as (items & rows & Hrun & _ & Hrows).
  rewrite Hrun. cbn [fst snd].
  match goal with
  | |- context [search_embeddings d ?w1] =>
      rewrite (search_embeddings_run d w1 Hq Hvec)
  end.
  rewrite Hc, Hk. cbn [fst limit embeddings log].
  exists items. eexists. split; [reflexivity |]. split; [reflexivity |].
  assert (Hfound : forall r,
             In r (embeddings w ++ rows)%list ->
             float_gtb (score_of q r) c = true ->
             In (hit q r)
                (map SearchResult_of_row
                   (order_by_score_desc
                      (filter (where_score_gt (Some c))
                              (matches q (embeddings w ++ rows)%list))))).
  { intros r Hr Hgt.
    change (hit q r) with (SearchResult_of_row (match_of q r)).
    apply in_map, qualifying_row_is_ranked; assumption. }
  split.
  - intros item v Hitem Hv Hgt.
    destruct (Forall2_In_left item Hrows Hitem)
      as (r & Hr & Hu & Ht & Href & Hemb & _).
    rewrite Hv in Hemb. injection Hemb as ->.
    rewrite <- Hu, <- Ht, <- Href.
    apply (Hfound r); [apply in_or_app; right; exact Hr | exact Hgt].
  - intros r Hr Hgt.
    apply (Hfound r); [apply in_or_app; left; exact Hr | exact Hgt].
Qed.

End MoreProperties.

(** * Runs of the further properties *)

Import Cases.

Lemma four_vectors_storable : Forall (storable (X := deployment)) four_vectors.
Proof. repeat constructor; discriminate. Qed.

Lemma ingest_pangram_adaptable : request_adaptable (X := deployment) ingest_pangram.
Proof. repeat split; reflexivity. Qed.

Lemma pangram_chunks_adaptable : Forall adaptable (split_text splitter_25 pangram).
Proof. vm_compute. repeat constructor. Qed.

(** Rows and items of an ingestion of four chunks. *)
Lemma create_embeddings_stores_items_witness :
  new_text_splitter (CreateEmbeddingsBody.chunk_size ingest_pangram) 20
  = Ok splitter_25 /\
  encode_list (split_text splitter_25 pangram) (Some 32) get_device
  = Ok four_vectors /\
  request_adaptable ingest_pangram /\
  Forall adaptable (split_text splitter_25 pangram) /\
  Forall storable four_vectors /\
  exists items rows,
    fst (create_embeddings ingest_pangram three_records)
    = Ok (CreateEmbeddingsOutput.mk items) /\
    embeddings (snd (create_embeddings ingest_pangram three_records))
    = (embeddings three_records ++ rows)%list /\
    Forall2 (stored_as ingest_pangram) items rows.
Proof.
  split; [reflexivity |]. split; [reflexivity |].
  split; [exact ingest_pangram_adaptable |].
  split; [exact pangram_chunks_adaptable |].
  split; [exact four_vectors_storable |].
  apply (@create_embeddings_stores_items Q_float8 deployment
           ingest_pangram three_records splitter_25 four_vectors);
    first [reflexivity | exact ingest_pangram_adaptable
           | exact pangram_chunks_adaptable | exact four_vectors_storable].
Defined.


(** The calls of an ingestion of four chunks. *)
Lemma create_embeddings_call_sequence_witness :
  new_text_splitter (CreateEmbeddingsBody.chunk_size ingest_pangram) 20
  = Ok splitter_25 /\
  encode_list (split_text splitter_25 pangram) (Some 32) get_device
  = Ok four_vectors /\
  request_adaptable ingest_pangram /\
  Forall adaptable (split_text splitter_25 pangram) /\
  Forall storable four_vectors /\
  calls (snd (create_embeddings ingest_pangram empty_world))
  = (calls empty_world
     ++ ModelEncode (split_text splitter_25 pangram) (Some 32)
     :: flat_map (fun text => [SqlInsert text "A"; ConnCommit])
          (firstn (List.length four_vectors) (split_text splitter_25 pangram)))%list.
Proof.
  split; [reflexivity |]. split; [reflexivity |].
  split; [exact ingest_pangram_adaptable |].
  split; [exact pangram_chunks_adaptable |].
  split; [exact four_vectors_storable |].
  apply (@create_embeddings_call_sequence Q_float8 deployment
           ingest_pangram empty_world splitter_25 four_vectors);
    first [reflexivity | exact ingest_pangram_adaptable
           | exact pangram_chunks_adaptable | exact four_vectors_storable].
Defined.

(** The last character of the text is a NUL: three rows stay, and the
    insert of the fourth chunk is the last call. *)
Lemma create_embeddings_stops_at_nul_chunk_witness :
  new_text_splitter (CreateEmbeddingsBody.chunk_size ingest_pangram_nul) 20
  = Ok splitter_25 /\
  split_text splitter_25 pangram_nul
  = (["abcdefghijklmnopqrstuvwxy"; "fghijklmnopqrstuvwxyz0123";
      "klmnopqrstuvwxyz012345678"]
     ++ nul_chunk :: [])%list /\
  encode_list (split_text splitter_25 pangram_nul) (Some 32) get_device
  = Ok ([[0; 0; 1]; [0; 0; 1]; [0; 0; 1]] ++ [0; 0; 1] :: [])%Q%list /\
  request_adaptable ingest_pangram_nul /\
  Forall adaptable ["abcdefghijklmnopqrstuvwxy"; "fghijklmnopqrstuvwxyz0123";
                    "klmnopqrstuvwxyz012345678"] /\
  Forall storable [[0; 0; 1]; [0; 0; 1]; [0; 0; 1]]%Q /\
  has_nul nul_chunk = true /\
  fst (create_embeddings ingest_pangram_nul three_records) = Raise ValueError /\
  (exists rows,
      embeddings (snd (create_embeddings ingest_pangram_nul three_records))
      = (embeddings three_records ++ rows)%list /\
      map row_text rows
      = ["abcdefghijklmnopqrstuvwxy"; "fghijklmnopqrstuvwxyz0123";
         "klmnopqrstuvwxyz012345678"]) /\
  calls (snd (create_embeddings ingest_pangram_nul three_records))
  = (calls three_records
     ++ ModelEncode
          (["abcdefghijklmnopqrstuvwxy"; "fghijklmnopqrstuvwxyz0123";
            "klmnopqrstuvwxyz012345678"]
           ++ nul_chunk :: [])
          (Some 32)
     :: flat_map (fun t => [SqlInsert t "A"; ConnCommit])
          ["abcdefghijklmnopqrstuvwxy"; "fghijklmnopqrstuvwxyz0123";
           "klmnopqrstuvwxyz012345678"]
     ++ [SqlInsert nul_chunk "A"])%list.
Proof.
  assert (Hreq : request_adaptable (X := deployment) ingest_pangram_nul)
    by (repeat split; reflexivity).
  assert (Hbefore : Forall adaptable
                      ["abcdefghijklmnopqrstuvwxy"; "fghijklmnopqrstuvwxyz0123";
                       "klmnopqrstuvwxyz012345678"])
    by (repeat constructor).
  assert (Hgood : Forall (storable (X := deployment))
                    [[0; 0; 1]; [0; 0; 1]; [0; 0; 1]]%Q)
    by (repeat constructor; discriminate).
  split; [reflexivity |]. split; [reflexivity |]. split; [reflexivity |].
  split; [exact Hreq |]. split; [exact Hbefore |]. split; [exact Hgood |].
  split; [reflexivity |].
  apply (@create_embeddings_stops_at_nul_chunk Q_float8 deployment
           ingest_pangram_nul three_records splitter_25
           ["abcdefghijklmnopqrstuvwxy"; "fghijklmnopqrstuvwxyz0123";
            "klmnopqrstuvwxyz012345678"]
           nul_chunk []
           [[0; 0; 1]; [0; 0; 1]; [0; 0; 1]]%Q [0; 0; 1]%Q []);
    first [reflexivity | exact Hreq | exact Hbefore | exact Hgood].
Defined.

(** Ingestion against direct encode on the same text. *)
Lemma create_embeddings_agrees_with_encode_text_corpus_witness :
  new_text_splitter (Some 25) 20 = Ok splitter_25 /\
  encode_list (split_text splitter_25 pangram) (Some 32) get_device
  = Ok four_vectors /\
  request_adaptable
    (CreateEmbeddingsBody.mk pangram "A" [] None (Some 32) (Some 25)) /\
  Forall adaptable (split_text splitter_25 pangram) /\
  Forall storable four_vectors /\
  exists items outs,
    fst (create_embeddings
           (CreateEmbeddingsBody.mk pangram "A" [] None (Some 32) (Some 25))
           three_records)
    = Ok (CreateEmbeddingsOutput.mk items) /\
    fst (encode_text_corpus (EncodeBody.mk pangram (Some 32) (Some 25)) empty_world)
    = Ok outs /\
    map (fun i => (EmbeddingsOutputItem.text i, EmbeddingsOutputItem.embedding i))
        items
    = map (fun o => (EncodeOutput.text o, EncodeOutput.embedding o)) outs.
Proof.
  split; [reflexivity |]. split; [reflexivity |].
  split; [exact ingest_pangram_adaptable |].
  split; [exact pangram_chunks_adaptable |].
  split; [exact four_vectors_storable |].
  apply (@create_embeddings_agrees_with_encode_text_corpus Q_float8 deployment
           pangram "A" [] None (Some 32) (Some 25) three_records empty_world
           splitter_25 four_vectors);
    first [reflexivity | exact ingest_pangram_adaptable
           | exact pangram_chunks_adaptable | exact four_vectors_storable].
Defined.

(** Bulk encode of three items, the second without chunks. *)
Lemma bulk_encode_aligned_witness :
  new_text_splitter (BulkEncodeBody.chunk_size bulk_request) 20 = Ok splitter_25 /\
  encode_list (bulk_chunks splitter_25 (BulkEncodeBody.texts bulk_request))
    (BulkEncodeBody.batch_size bulk_request) get_device
  = Ok (four_vectors ++ [[0; 1; 0]%Q])%list /\
  (List.length (bulk_chunks splitter_25 (BulkEncodeBody.texts bulk_request))
   <= List.length (four_vectors ++ [[0; 1; 0]%Q]))%nat /\
  exists output,
    fst (bulk_encode bulk_request empty_world) = Ok output /\
    map (fun o => (BulkEncodeOutput.id o, BulkEncodeOutput.text o)) output
    = bulk_input_data splitter_25 (BulkEncodeBody.texts bulk_request) /\
    map BulkEncodeOutput.text output
    = bulk_chunks splitter_25 (BulkEncodeBody.texts bulk_request) /\
    map BulkEncodeOutput.embedding output
    = firstn (List.length (bulk_chunks splitter_25 (BulkEncodeBody.texts bulk_request)))
        (four_vectors ++ [[0; 1; 0]%Q]) /\
    calls (snd (bulk_encode bulk_request empty_world))
    = (calls empty_world
       ++ [ModelEncode (bulk_chunks splitter_25 (BulkEncodeBody.texts bulk_request))
             (BulkEncodeBody.batch_size bulk_request)])%list.
Proof.
  assert (Hlen : (List.length (bulk_chunks splitter_25
                                 (BulkEncodeBody.texts bulk_request))
                  <= List.length (four_vectors ++ [[0; 1; 0]%Q]))%nat)
    by (vm_compute; lia).
  split; [reflexivity |]. split; [reflexivity |]. split; [exact Hlen |].
  apply (@bulk_encode_aligned Q_float8 deployment bulk_request empty_world
           splitter_25 (four_vectors ++ [[0; 1; 0]%Q])%list);
    first [reflexivity | exact Hlen].
Defined.

(** The lossy model returns four vectors for the five chunks. *)
Lemma bulk_encode_too_few_vectors_witness :
  new_text_splitter (BulkEncodeBody.chunk_size bulk_request) 20 = Ok splitter_25 /\
  encode_list (Externals := lossy_deployment)
    (bulk_chunks (X := lossy_deployment) splitter_25
       (BulkEncodeBody.texts bulk_request))
    (BulkEncodeBody.batch_size bulk_request)
    (get_device (Externals := lossy_deployment))
  = Ok four_vectors /\
  (List.length four_vectors
   < List.length (bulk_chunks (X := lossy_deployment) splitter_25
                    (BulkEncodeBody.texts bulk_request)))%nat /\
  fst (bulk_encode (X := lossy_deployment) bulk_request empty_world)
  = Raise IndexError.
Proof.
  assert (Hlen : (List.length four_vectors
                  < List.length (bulk_chunks (X := lossy_deployment) splitter_25
                                   (BulkEncodeBody.texts bulk_request)))%nat)
    by (vm_compute; lia).
  split; [reflexivity |]. split; [reflexivity |]. split; [exact Hlen |].
  apply (@bulk_encode_too_few_vectors Q_float8 lossy_deployment bulk_request
           empty_world splitter_25 four_vectors);
    first [reflexivity | exact Hlen].
Defined.

(** The ids of the entries of the same bulk request. *)
Lemma bulk_encode_entries_inherit_ids_witness :
  new_text_splitter (BulkEncodeBody.chunk_size bulk_request) 20 = Ok splitter_25 /\
  encode_list (bulk_chunks splitter_25 (BulkEncodeBody.texts bulk_request))
    (BulkEncodeBody.batch_size bulk_request) get_device
  = Ok (four_vectors ++ [[0; 1; 0]%Q])%list /\
  (List.length (bulk_chunks splitter_25 (BulkEncodeBody.texts bulk_request))
   <= List.length (four_vectors ++ [[0; 1; 0]%Q]))%nat /\
  exists output,
    fst (bulk_encode bulk_request empty_world) = Ok output /\
    forall id text,
      (exists o, In o output /\
                 BulkEncodeOutput.id o = id /\ BulkEncodeOutput.text o = text) <->
      (exists item,
          In item (BulkEncodeBody.texts bulk_request) /\
          BulkEncodeItem.id item = id /\
          In text (split_text splitter_25 (BulkEncodeItem.text item))).
Proof.
  assert (Hlen : (List.length (bulk_chunks splitter_25
                                 (BulkEncodeBody.texts bulk_request))
                  <= List.length (four_vectors ++ [[0; 1; 0]%Q]))%nat)
    by (vm_compute; lia).
  split; [reflexivity |]. split; [reflexivity |]. split; [exact Hlen |].
  apply (@bulk_encode_entries_inherit_ids Q_float8 deployment bulk_request
           empty_world splitter_25 (four_vectors ++ [[0; 1; 0]%Q])%list);
    first [reflexivity | exact Hlen].
Defined.

(** Bulk encode of one item against direct encode of its text. *)
Lemma bulk_encode_single_item_witness :
  new_text_splitter (Some 25) 20 = Ok splitter_25 /\
  encode_list (split_text splitter_25 pangram) (Some 32) get_device
  = Ok four_vectors /\
  (List.length (split_text splitter_25 pangram) <= List.length four_vectors)%nat /\
  exists outs bulk,
    fst (encode_text_corpus (EncodeBody.mk pangram (Some 32) (Some 25)) empty_world)
    = Ok outs /\
    fst (bulk_encode
           (BulkEncodeBody.mk [BulkEncodeItem.mk "doc-1" pangram] (Some 32) (Some 25))
           three_records)
    = Ok bulk /\
    map BulkEncodeOutput.text bulk = map EncodeOutput.text outs /\
    map BulkEncodeOutput.embedding bulk = map EncodeOutput.embedding outs /\
    Forall (fun o => BulkEncodeOutput.id o = "doc-1") bulk.
Proof.
  assert (Hlen : (List.length (split_text splitter_25 pangram)
                  <= List.length four_vectors)%nat)
    by (vm_compute; lia).
  split; [reflexivity |]. split; [reflexivity |]. split; [exact Hlen |].
  apply (@bulk_encode_single_item Q_float8 deployment "doc-1" pangram
           (Some 32) (Some 25) empty_world three_records splitter_25 four_vectors);
    first [reflexivity | exact Hlen].
Defined.

(** A chunk size of 20 in the three chunking handlers. *)
Lemma splitter_rejection_stops_handlers_witness :
  new_text_splitter (Some 20) 20 = Raise ValueError /\
  create_embeddings
    (CreateEmbeddingsBody.mk pangram "A" [] None (Some 32) (Some 20)) three_records
  = (Raise ValueError, three_records) /\
  encode_text_corpus (EncodeBody.mk pangram (Some 32) (Some 20)) three_records
  = (Raise ValueError, three_records) /\
  bulk_encode
    (BulkEncodeBody.mk (BulkEncodeBody.texts bulk_request) (Some 32) (Some 20))
    three_records
  = (Raise ValueError, three_records).
Proof.
  split; [reflexivity |].
  apply (@splitter_rejection_stops_handlers Q_float8 deployment
           pangram "A" [] None (BulkEncodeBody.texts bulk_request)
           (Some 32) (Some 20) three_records ValueError).
  reflexivity.
Defined.

(** A search with a null cutoff on the three-record store. *)
Lemma search_embeddings_null_cutoff_witness :
  SearchEmbeddingsBody.cutoff (search_no_cutoff "alpha") = None /\
  (SearchEmbeddingsBody.top_k (search_no_cutoff "alpha") = None \/
   exists k, SearchEmbeddingsBody.top_k (search_no_cutoff "alpha") = Some k /\
             0 <= k <= bigint_max) /\
  encode_str "alpha" (Some 32) get_device = Ok [1; 0; 0]%Q /\
  vector_in [1; 0; 0]%Q = Some [1; 0; 0]%Q /\
  fst (search_embeddings (search_no_cutoff "alpha") three_records) = Ok [].
Proof.
  assert (Hk : SearchEmbeddingsBody.top_k (search_no_cutoff "alpha") = None \/
               exists k, SearchEmbeddingsBody.top_k (search_no_cutoff "alpha") = Some k /\
                         0 <= k <= bigint_max).
  { right. exists 10. split; [reflexivity | unfold bigint_max; lia]. }
  split; [reflexivity |]. split; [exact Hk |].
  split; [reflexivity |]. split; [reflexivity |].
  apply (@search_embeddings_null_cutoff Q_float8 deployment
           (search_no_cutoff "alpha") three_records [1; 0; 0]%Q [1; 0; 0]%Q);
    first [reflexivity | exact Hk].
Defined.

(** A search without limit on the three-record store. *)
Lemma search_embeddings_exact_without_limit_witness :
  SearchEmbeddingsBody.cutoff (search_no_limit "alpha") = Some (1 # 5)%Q /\
  SearchEmbeddingsBody.top_k (search_no_limit "alpha") = None /\
  encode_str "alpha" (Some 32) get_device = Ok [1; 0; 0]%Q /\
  vector_in [1; 0; 0]%Q = Some [1; 0; 0]%Q /\
  exists response,
    fst (search_embeddings (search_no_limit "alpha") three_records) = Ok response /\
    Permutation response
      (map (hit [1; 0; 0]%Q)
           (filter (fun r => float_gtb (score_of [1; 0; 0]%Q r) (1 # 5)%Q)
                   (embeddings three_records))).
Proof.
  repeat (split; [reflexivity |]).
  apply (@search_embeddings_exact_without_limit Q_float8 deployment
           (search_no_limit "alpha") three_records (1 # 5)%Q
           [1; 0; 0]%Q [1; 0; 0]%Q);
    first [reflexivity | left; reflexivity].
Defined.

(** A search with limit -1. *)
Lemma search_embeddings_bad_limit_witness :
  encode_str "alpha" (Some 32) get_device = Ok [1; 0; 0]%Q /\
  SearchEmbeddingsBody.top_k (search_top "alpha" (-1)) = Some (-1) /\
  (-1 < 0 \/ bigint_max < -1) /\
  fst (search_embeddings (search_top "alpha" (-1)) three_records)
  = Raise DatabaseError.
Proof.
  split; [reflexivity |]. split; [reflexivity |].
  split; [left; lia |].
  apply (@search_embeddings_bad_limit Q_float8 deployment
           (search_top "alpha" (-1)) three_records [1; 0; 0]%Q (-1));
    first [reflexivity | left; lia].
Defined.

(** With limit 1 the record "alphabet" (score 3/5) is left out for the
    record "alpha" (score 1). *)
Lemma search_embeddings_keeps_the_best_witness :
  SearchEmbeddingsBody.cutoff (search_top "alpha" 1) = Some (1 # 5)%Q /\
  SearchEmbeddingsBody.top_k (search_top "alpha" 1) = Some 1 /\
  0 <= 1 <= bigint_max /\
  encode_str "alpha" (Some 32) get_device = Ok [1; 0; 0]%Q /\
  vector_in [1; 0; 0]%Q = Some [1; 0; 0]%Q /\
  In alphabet_row (embeddings three_records) /\
  float_gtb (score_of [1; 0; 0]%Q alphabet_row) (1 # 5)%Q = true /\
  exists response,
    fst (search_embeddings (search_top "alpha" 1) three_records) = Ok response /\
    (In (hit [1; 0; 0]%Q alphabet_row) response \/
     (List.length response = Z.to_nat 1 /\
      Forall (fun h => float_leb (score_of [1; 0; 0]%Q alphabet_row)
                         (SearchResult.score h) = true)
             response)).
Proof.
  assert (Hrange : 0 <= 1 <= bigint_max) by (unfold bigint_max; lia).
  assert (Hin : In alphabet_row (embeddings three_records)).
  { right. right. left. reflexivity. }
  split; [reflexivity |]. split; [reflexivity |]. split; [exact Hrange |].
  split; [reflexivity |]. split; [reflexivity |]. split; [exact Hin |].
  split; [reflexivity |].
  apply (@search_embeddings_keeps_the_best Q_float8 deployment
           (search_top "alpha" 1) three_records (1 # 5)%Q 1
           [1; 0; 0]%Q [1; 0; 0]%Q alphabet_row);
    first [reflexivity | exact Hrange | exact Hin].
Defined.

(** Ingest "alpha" into the three-record store, then search for it. *)
Lemma ingested_chunks_are_found_witness :
  new_text_splitter (CreateEmbeddingsBody.chunk_size (ingest "C" "alpha")) 20
  = Ok splitter_1000 /\
  encode_list (split_text splitter_1000 "alpha") (Some 32) get_device
  = Ok [[1; 0; 0]%Q] /\
  request_adaptable (ingest "C" "alpha") /\
  Forall adaptable (split_text splitter_1000 "alpha") /\
  Forall storable [[1; 0; 0]%Q] /\
  SearchEmbeddingsBody.cutoff (search_no_limit "alpha") = Some (1 # 5)%Q /\
  SearchEmbeddingsBody.top_k (search_no_limit "alpha") = None /\
  encode_str "alpha" (Some 32) get_device = Ok [1; 0; 0]%Q /\
  vector_in [1; 0; 0]%Q = Some [1; 0; 0]%Q /\
  exists items response,
    fst (create_embeddings (ingest "C" "alpha") three_records)
    = Ok (CreateEmbeddingsOutput.mk items) /\
    fst (search_embeddings (search_no_limit "alpha")
           (snd (create_embeddings (ingest "C" "alpha") three_records)))
    = Ok response /\
    (forall item v,
        In item items ->
        vector_in (EmbeddingsOutputItem.embedding item) = Some v ->
        float_gtb (float_sub float_one (cosine_distance v [1; 0; 0]%Q)) (1 # 5)%Q
        = true ->
        In (SearchResult.mk (EmbeddingsOutputItem.uuid item)
              (EmbeddingsOutputItem.text item) "C"
              (float_sub float_one (cosine_distance v [1; 0; 0]%Q)))
           response) /\
    (forall r,
        In r (embeddings three_records) ->
        float_gtb (score_of [1; 0; 0]%Q r) (1 # 5)%Q = true ->
        In (hit [1; 0; 0]%Q r) response).
Proof.
  assert (Hreq : request_adaptable (X := deployment) (ingest "C" "alpha"))
    by (repeat split; reflexivity).
  assert (Hdocs : Forall adaptable (split_text splitter_1000 "alpha"))
    by (vm_compute; repeat constructor).
  assert (Hstore : Forall (storable (X := deployment)) [[1; 0; 0]%Q])
    by (repeat constructor; discriminate).
  split; [reflexivity |]. split; [reflexivity |]. split; [exact Hreq |].
  split; [exact Hdocs |]. split; [exact Hstore |].
  repeat (split; [reflexivity |]).
  apply (@ingested_chunks_are_found Q_float8 deployment
           (ingest "C" "alpha") (search_no_limit "alpha") three_records
           splitter_1000 [[1; 0; 0]%Q] (1 # 5)%Q [1; 0; 0]%Q [1; 0; 0]%Q);
    first [reflexivity | exact Hreq | exact Hdocs | exact Hstore].
Defined.

(** The search after that ingestion, evaluated. *)
Example search_after_ingest :
  fst (search_embeddings (search_no_limit "alpha")
         (snd (create_embeddings (ingest "C" "alpha") three_records)))
  = Ok [SearchResult.mk "uuid-0" "alpha" "A" 1%Q;
        SearchResult.mk "uuid-3" "alpha" "C" 1%Q;
        SearchResult.mk "uuid-2" "alphabet" "A" (3 # 5)%Q].
Proof. vm_compute. reflexivity. Qed.
